(** * Weighted routing on AWS App Mesh: the CDK stack as a resource-graph builder

    A shallow embedding of
      - [lib/envoy-fargate-service.ts]              (class [EnvoyFargateService]),
      - [lib/app-mesh-service.ts]                   (class [AppMeshService]),
      - [lib/aws-app-mesh-weighted-routing-stack.ts] (class [AwsAppmeshWeightedRoutingStack]),
      - [bin/aws-app-mesh-weighted-routing.ts]      ([main]),
      - [containers/serviceA/app.js]                (the gateway's request handlers).

    The TypeScript classes are CDK constructs: running a constructor adds
    nodes to the construct tree of the enclosing [cdk.App] and mutates
    constructs that already exist ([addBackend], [allowTo],
    [addPortMappings]).  The embedding threads the tree explicitly: a
    constructor is a function from the tree built so far to either an error
    or a result together with the extended tree.

    What is recorded is what the repository's code hands to the CDK: for
    each [new C(scope, id, props)] the path of the construct and its
    properties, for each mutating call its arguments, in execution order.
    Of the CDK itself only the construct tree's rule is modelled that a
    scope has no two children with one id.  Numbers are integers, strings
    are byte strings and ids are taken as written; container image
    directories are recorded, not read; how the CDK renders the constructs
    into a template is not part of the model.

    The CDK checks more than that rule: it rewrites path separators in an
    id, refuses an empty id, a stack name outside its pattern and an image
    directory that does not exist.  So a run the CDK accepts is a run the
    embedding accepts, with the same constructs requested, and a refusal
    for a taken id is a refusal of the CDK as well; but the embedding
    accepts runs the CDK refuses.  The statements below are written
    accordingly: what a constructor builds is stated of runs that have
    returned, and a refusal is stated only where the id is taken. *)

From Stdlib Require Import ZArith Ascii.
From stdpp Require Import base list sets strings pretty.

Local Open Scope Z_scope.

(** ** Strings *)

(** [String.prototype.toLowerCase] on the ASCII range: the letters [A]-[Z]
    move to [a]-[z], every other byte is kept.  On a string with characters
    outside ASCII the built-in also lowers those and may change the length;
    [is_ascii] below marks the strings on which the two agree. *)
Definition lower_ascii (c : ascii) : ascii :=
  let n := nat_of_ascii c in
  if ((65 <=? n) && (n <=? 90))%nat then ascii_of_nat (n + 32) else c.

Fixpoint toLowerCase (s : string) : string :=
  match s with
  | EmptyString => EmptyString
  | String c s' => String (lower_ascii c) (toLowerCase s')
  end.

(** The characters of a string, the letters [A]-[Z], and the strings made
    of ASCII characters only. *)
Fixpoint chars (s : string) : list ascii :=
  match s with
  | EmptyString => []
  | String c s' => c :: chars s'
  end.

Definition upper_case (c : ascii) : bool :=
  let n := nat_of_ascii c in ((65 <=? n) && (n <=? 90))%nat.

Definition is_ascii (s : string) : bool :=
  forallb (fun c => (nat_of_ascii c <? 128)%nat) (chars s).

(** ** The construct tree *)

(** A construct is addressed by the ids on the way from the [cdk.App] down
    to it; [scope ++ [id]] is the child [id] of [scope]. *)
Definition Path := list string.

Inductive Protocol := TCP | UDP.
Inductive ApplicationProtocol := HTTP.
Inductive SubnetType := PRIVATE.
Inductive DnsRecordType := DnsRecordType_A.

Inductive Duration :=
| Duration_seconds (n : Z)
| Duration_minutes (n : Z).

(** [ec2.Port.tcp(p)] *)
Inductive Port := Port_tcp (p : Z).

(** *** References to the shared environment *)

Record MeshRef := { mesh_node : Path; meshName : string }.
Record ClusterRef := { cluster_node : Path; cluster_vpc : Path }.
Record NamespaceRef := { namespace_node : Path; namespaceName : string }.
Record HostedZoneRef := { zone_node : Path; zoneName : string }.

(** [interface AppEnvironment] *)
Record AppEnvironment := {
  mesh : MeshRef;
  cluster : ClusterRef;
  namespace : NamespaceRef;
  hostedZone : HostedZoneRef;
}.

(** [interface AppMeta] *)
Record AppMeta := { meta_name : string; meta_port : Z }.

(** [interface AppMeshRoute] *)
Record AppMeshRoute := { route_name : string; route_weight : Z }.

(** [interface AppMeshServiceProps] *)
Record AppMeshServiceProps := {
  props_name : string;
  props_port : Z;
  props_routes : list AppMeshRoute;
  props_environment : AppEnvironment;
}.

(** [interface EnvoyFargateServiceProps] *)
Record EnvoyFargateServiceProps := {
  props_meta : AppMeta;
  props_env : AppEnvironment;
}.

(** *** Properties handed to the CDK constructs *)

Record RoleProps := {
  assumedBy : string;
  managedPolicies : list string;
}.

Record AppMeshProxyConfiguration := {
  proxy_containerName : string;
  appPorts : list Z;
  proxyEgressPort : Z;
  proxyIngressPort : Z;
  ignoredUID : Z;
  egressIgnoredIPs : list string;
}.

Record FargateTaskDefinitionProps := {
  taskRole : Path;
  executionRole : Path;
  proxyConfiguration : AppMeshProxyConfiguration;
}.

Inductive ContainerImage :=
| ContainerImage_fromAsset (directory : list string)
| ContainerImage_fromRegistry (image : string).

Record ContainerHealthCheck := {
  command : list string;
  startPeriod : Duration;
  hc_interval : Duration;
  hc_timeout : Duration;
  retries : Z;
}.

Record ContainerDefinitionOptions := {
  containerName : option string;
  image : ContainerImage;
  essential : bool;
  container_environment : list (string * string);
  container_healthCheck : option ContainerHealthCheck;
  memoryLimitMiB : option Z;
  user : option string;
  logging_streamPrefix : string;
}.

Record PortMapping := {
  containerPort : Z;
  hostPort : Z;
  pm_protocol : Protocol;
}.

Record CloudMapOptions := {
  cloudMapNamespace : NamespaceRef;
  cloudMap_container : Path;
  dnsRecordType : DnsRecordType;
  dnsTtl : Duration;
  cloudMap_name : string;
}.

Record FargateServiceProps := {
  fs_cluster : ClusterRef;
  fs_taskDefinition : Path;
  desiredCount : Z;
  vpcSubnets : SubnetType;
  cloudMapOptions : CloudMapOptions;
}.

Record HttpHealthCheck := {
  healthyThreshold : Z;
  interval : Duration;
  path : string;
  timeout : Duration;
  unhealthyThreshold : Z;
}.

Record VirtualNodeListener := {
  listener_port : Z;
  healthCheck : HttpHealthCheck;
}.

(** [appmesh.ServiceDiscovery.cloudMap({ service })]: [service] is the
    [cloudMapService] of the named Fargate service. *)
Inductive ServiceDiscovery :=
| ServiceDiscovery_cloudMap (cloudMapServiceOf : Path).

Record VirtualNodeProps := {
  vn_mesh : MeshRef;
  virtualNodeName : string;
  serviceDiscovery : ServiceDiscovery;
  vn_listeners : list VirtualNodeListener;
  accessLog : string;
}.

(** [appmesh.VirtualRouterListener.http(port)] *)
Inductive VirtualRouterListener := VirtualRouterListener_http (p : Z).

Record VirtualRouterProps := {
  vr_mesh : MeshRef;
  vr_listeners : list VirtualRouterListener;
}.

Record WeightedTarget := {
  wt_virtualNode : Path;
  weight : Z;
}.

(** [appmesh.RouteSpec.http({ weightedTargets })] *)
Inductive RouteSpec := RouteSpec_http (weightedTargets : list WeightedTarget).

Record RouteProps := {
  routeName : string;
  routeSpec : RouteSpec;
}.

(** [appmesh.VirtualServiceProvider.virtualRouter(router)] *)
Inductive VirtualServiceProvider :=
| VirtualServiceProvider_virtualRouter (router : Path).

Record VirtualServiceProps := {
  virtualServiceName : string;
  virtualServiceProvider : VirtualServiceProvider;
}.

(** [route53.RecordTarget.fromIpAddresses(...)] *)
Inductive RecordTarget := RecordTarget_fromIpAddresses (ips : list string).

Record ARecordProps := {
  zone : HostedZoneRef;
  recordName : string;
  target : RecordTarget;
}.

Record ApplicationLoadBalancerProps := {
  internetFacing : bool;
  lb_vpc : Path;
}.

Record ListenerProps := {
  lis_port : Z;
  lis_protocol : ApplicationProtocol;
}.

Record TargetGroupProps := {
  tg_port : Z;
  tg_protocol : ApplicationProtocol;
  tg_targets : list Path;
  tg_healthCheck_path : string;
}.

(** An attribute of a construct that is only known after deployment, such
    as [loadBalancer.loadBalancerDnsName]. *)
Record Attribute := { attr_of : Path; attr_name : string }.

(** The constructs the three classes create, tagged with the CDK module
    they come from. *)
Inductive Resource :=
| cdk_Stack
| cdk_Construct (className : string)
| cdk_CfnOutput (value : Attribute)
| ec2_Vpc (maxAzs : Z)
| appmesh_Mesh
| cloudmap_PrivateDnsNamespace (name : string) (vpc : Path)
| ecs_Cluster (vpc : Path)
| route53_PrivateHostedZone (zoneName : string) (vpc : Path)
| iam_Role (props : RoleProps)
| ecs_FargateTaskDefinition (props : FargateTaskDefinitionProps)
| ecs_ContainerDefinition (props : ContainerDefinitionOptions)
| ecs_FargateService (props : FargateServiceProps)
| appmesh_VirtualNode (props : VirtualNodeProps)
| appmesh_VirtualRouter (props : VirtualRouterProps)
| appmesh_Route (props : RouteProps)
| appmesh_VirtualService (props : VirtualServiceProps)
| route53_ARecord (props : ARecordProps)
| elbv2_ApplicationLoadBalancer (props : ApplicationLoadBalancerProps)
| elbv2_ApplicationListener (props : ListenerProps)
| elbv2_ApplicationTargetGroup (props : TargetGroupProps).

(** What a run records, in execution order: the constructs it creates and
    the calls that change a construct after its creation. *)
Inductive Decl :=
| New (p : Path) (r : Resource)
| AddPortMappings (container : Path) (pm : PortMapping)
| AddBackend (virtualNode : Path) (virtualService : Path)
| AllowTo (from to : Path) (port : Port) (description : string).

Definition Tree := list Decl.

Definition new_path (d : Decl) : option Path :=
  match d with
  | New p _ => Some p
  | _ => None
  end.

(** The paths in use. *)
Definition paths (t : Tree) : list Path := omap new_path t.

(** ** The construction monad *)

Inductive Error :=
| ConstructExists (p : Path)      (* [There is already a Construct with name ...] *)
| TypeError (msg : string).       (* a property of [undefined] was read *)

(** A run either throws, and then nothing of the tree is left for
    synthesis, or returns a value and the tree it has built. *)
Definition Synth (A : Type) : Type := Tree -> Error + (A * Tree).

Definition ret {A} (a : A) : Synth A := fun t => inr (a, t).

Definition bind {A B} (m : Synth A) (f : A -> Synth B) : Synth B :=
  fun t =>
    match m t with
    | inl e => inl e
    | inr (a, t') => f a t'
    end.

Notation "'let*' x ':=' m 'in' f" := (bind m (fun x => f))
  (at level 10, x name, m at level 100, f at level 200).
Notation "m1 ';;;' m2" := (bind m1 (fun _ => m2))
  (at level 100, m2 at level 200, right associativity).

(** [new C(scope, id, props)]: the base-class constructor [cdk.Construct]
    registers the node as child [id] of [scope]; the tree refuses a second
    child with an id that is taken.  The id is kept as written: that the
    tree replaces path separators in it and refuses an empty one is not
    modelled. *)
Definition new (scope : Path) (id : string) (r : Resource) : Synth Path :=
  fun t =>
    let p := scope ++ [id] in
    if decide (p ∈ paths t) then inl (ConstructExists p)
    else inr (p, t ++ [New p r]).

(** A call that changes an existing construct. *)
Definition call (d : Decl) : Synth unit := fun t => inr (tt, t ++ [d]).

(** [Array.prototype.map] with a callback that builds constructs: the
    elements are visited in index order. *)
Fixpoint mapM {A B} (f : A -> Synth B) (l : list A) : Synth (list B) :=
  match l with
  | [] => ret []
  | x :: l' =>
      let* y := f x in
      let* ys := mapM f l' in
      ret (y :: ys)
  end.

(** [Array.prototype.forEach] *)
Fixpoint forEach {A} (f : A -> Synth unit) (l : list A) : Synth unit :=
  match l with
  | [] => ret tt
  | x :: l' => f x ;;; forEach f l'
  end.

(** Template literals convert a number to its decimal notation; the ports
    of this program are integers far below [10^21], from where on the
    built-in switches to exponent notation. *)
Definition number_toString (n : Z) : string := pretty n.

(** ** [lib/envoy-fargate-service.ts] *)

Definition ENVOY_CONTAINER : string :=
  "public.ecr.aws/appmesh/aws-appmesh-envoy:v1.17.2.0-prod".
Definition XRAY_CONTAINER : string := "amazon/aws-xray-daemon:3.3.2".

(** [__dirname] of the module, relative to the repository root. *)
Definition dirname : string := "lib".

(** [cdk.Stack.of(this).region] of a stack without a fixed environment: the
    deploy-time region. *)
Definition Stack_region : string := "${AWS::Region}".

Module EnvoyFargateService.

(** What the methods read from [this] while the constructor runs. *)
Record This := {
  node : Path;
  meta : AppMeta;
  environment : AppEnvironment;
}.

(** The finished object. *)
Record t := {
  this :> This;
  fargateService : Path;
  virtualNode : Path;
}.

Definition createTaskRole (this : This) : Synth Path :=
  new (node this) ("TaskRole_" +:+ meta_name (meta this)) (iam_Role {|
    assumedBy := "ecs-tasks.amazonaws.com";
    managedPolicies := [
      "AWSAppMeshEnvoyAccess";
      "CloudWatchLogsFullAccess";
      "AWSXRayDaemonWriteAccess"
    ];
  |}).

Definition createExecutionRole (this : This) : Synth Path :=
  new (node this) ("TaskExecutionRole_" +:+ meta_name (meta this)) (iam_Role {|
    assumedBy := "ecs-tasks.amazonaws.com";
    managedPolicies := [
      "AmazonEC2ContainerRegistryReadOnly"
    ];
  |}).

Definition createTaskDefinition (this : This) : Synth Path :=
  let* taskRole := createTaskRole this in
  let* executionRole := createExecutionRole this in
  new (node this) ("TaskDefinition_" +:+ meta_name (meta this))
    (ecs_FargateTaskDefinition {|
      taskRole := taskRole;
      executionRole := executionRole;
      proxyConfiguration := {|
        proxy_containerName := "envoy";
        appPorts := [meta_port (meta this)];
        proxyEgressPort := 15001;
        proxyIngressPort := 15000;
        ignoredUID := 1337;
        egressIgnoredIPs := [
          "169.254.170.2";
          "169.254.169.254"
        ];
      |};
    |}).

(** [taskDefinition.addContainer(id, props)] creates the container as
    child [id] of the task definition.  [ContainerImage.fromAsset] is
    recorded with its directory; that it throws when the directory does not
    exist is not modelled. *)
Definition addAppContainer (this : This) (taskDefinition : Path) : Synth Path :=
  let* appContainer :=
    new taskDefinition ("AppContainer_" +:+ meta_name (meta this))
      (ecs_ContainerDefinition {|
        containerName := None;
        image := ContainerImage_fromAsset
                   [dirname; ".."; "containers"; meta_name (meta this)];
        essential := true;
        container_environment := [];
        container_healthCheck := Some {|
          command := [
            "CMD-SHELL";
            "curl -s http://localhost:" +:+ number_toString (meta_port (meta this))
              +:+ "/health"
          ];
          startPeriod := Duration_seconds 10;
          hc_interval := Duration_seconds 5;
          hc_timeout := Duration_seconds 2;
          retries := 3;
        |};
        memoryLimitMiB := None;
        user := None;
        logging_streamPrefix := meta_name (meta this);
      |}) in
  call (AddPortMappings appContainer {|
    containerPort := meta_port (meta this);
    hostPort := meta_port (meta this);
    pm_protocol := TCP;
  |}) ;;;
  ret appContainer.

Definition addEnvoyContainer (this : This) (taskDefinition : Path)
    (props : EnvoyFargateServiceProps) : Synth Path :=
  let* envoyContainer :=
    new taskDefinition ("EnvoyContainer_" +:+ meta_name (meta this))
      (ecs_ContainerDefinition {|
        containerName := Some "envoy";
        image := ContainerImage_fromRegistry ENVOY_CONTAINER;
        essential := true;
        container_environment := [
          ("APPMESH_VIRTUAL_NODE_NAME",
           "mesh/" +:+ meshName (mesh (environment this)) +:+ "/virtualNode/"
             +:+ meta_name (meta this));
          ("AWS_REGION", Stack_region)
        ];
        container_healthCheck := Some {|
          command := [
            "CMD-SHELL";
            "curl -s http://localhost:9901/server_info | grep state | grep -q LIVE"
          ];
          startPeriod := Duration_seconds 10;
          hc_interval := Duration_seconds 5;
          hc_timeout := Duration_seconds 2;
          retries := 3;
        |};
        memoryLimitMiB := Some 128;
        user := Some "1337";
        logging_streamPrefix := meta_name (meta this) +:+ "_envoy";
      |}) in
  ret envoyContainer.

Definition addXRayContainer (this : This) (taskDefinition : Path) : Synth Path :=
  let* xrayContainer :=
    new taskDefinition ("XRayContainer_" +:+ meta_name (meta this))
      (ecs_ContainerDefinition {|
        containerName := Some "xray";
        image := ContainerImage_fromRegistry XRAY_CONTAINER;
        essential := true;
        container_environment := [];
        container_healthCheck := None;
        memoryLimitMiB := None;
        user := None;
        logging_streamPrefix := meta_name (meta this) +:+ "_xray";
      |}) in
  call (AddPortMappings xrayContainer {|
    containerPort := 2000;
    hostPort := 2000;
    pm_protocol := UDP;
  |}) ;;;
  ret xrayContainer.

Definition createFargateService (this : This) (props : EnvoyFargateServiceProps)
    (taskDefinition : Path) (appContainer : Path) : Synth Path :=
  new (node this) ("FargateService_" +:+ meta_name (meta this))
    (ecs_FargateService {|
      fs_cluster := cluster (environment this);
      fs_taskDefinition := taskDefinition;
      desiredCount := 1;
      vpcSubnets := PRIVATE;
      cloudMapOptions := {|
        cloudMapNamespace := namespace (environment this);
        cloudMap_container := appContainer;
        dnsRecordType := DnsRecordType_A;
        dnsTtl := Duration_minutes 0;
        cloudMap_name := meta_name (meta this);
      |};
    |}).

Definition createVirtualNode (this : This) (props : EnvoyFargateServiceProps)
    (fargateService : Path) : Synth Path :=
  new (node this) ("VirtualNode_" +:+ meta_name (meta this))
    (appmesh_VirtualNode {|
      vn_mesh := mesh (environment this);
      virtualNodeName := meta_name (meta this);
      serviceDiscovery := ServiceDiscovery_cloudMap fargateService;
      vn_listeners := [
        {|
          listener_port := meta_port (meta this);
          healthCheck := {|
            healthyThreshold := 3;
            interval := Duration_seconds 5;
            path := "/health";
            timeout := Duration_seconds 2;
            unhealthyThreshold := 2;
          |};
        |}
      ];
      accessLog := "/dev/stdout";
    |}).

Definition constructor (scope : Path) (id : string)
    (props : EnvoyFargateServiceProps) : Synth t :=
  let* self := new scope id (cdk_Construct "EnvoyFargateService") in
  let this := {|
    node := self;
    meta := props_meta props;
    environment := props_env props;
  |} in
  let* taskDefinition := createTaskDefinition this in
  let* appContainer := addAppContainer this taskDefinition in
  addEnvoyContainer this taskDefinition props ;;;
  addXRayContainer this taskDefinition ;;;
  let* fargateService := createFargateService this props taskDefinition appContainer in
  let* virtualNode := createVirtualNode this props fargateService in
  ret {|
    this := this;
    fargateService := fargateService;
    virtualNode := virtualNode;
  |}.

(** [loadBalancer.addListener(id, props)] creates the listener as child
    [id] of the load balancer, [listener.addTargets(id, props)] the target
    group as child [id + 'Group'] of the listener. *)
Definition createExternalLoadBalancer (this : t) : Synth unit :=
  let* loadBalancer :=
    new (node this) ("ApplicationLoadBalancer_" +:+ meta_name (meta this))
      (elbv2_ApplicationLoadBalancer {|
        internetFacing := true;
        lb_vpc := cluster_vpc (cluster (environment this));
      |}) in
  let* listener :=
    new loadBalancer ("Listener_" +:+ meta_name (meta this))
      (elbv2_ApplicationListener {|
        lis_port := 80;
        lis_protocol := HTTP;
      |}) in
  let* targetGroup :=
    new listener (("TargetGroup_" +:+ meta_name (meta this)) +:+ "Group")
      (elbv2_ApplicationTargetGroup {|
        tg_port := meta_port (meta this);
        tg_protocol := HTTP;
        tg_targets := [fargateService this];
        tg_healthCheck_path := "/health";
      |}) in
  new (node this) ("ApiEndpoint_" +:+ meta_name (meta this))
    (cdk_CfnOutput {|
      attr_of := loadBalancer;
      attr_name := "loadBalancerDnsName";
    |}) ;;;
  ret tt.

End EnvoyFargateService.

Coercion EnvoyFargateService.this : EnvoyFargateService.t >-> EnvoyFargateService.This.

(** ** [lib/app-mesh-service.ts] *)

(** A callback without effects on the tree that may still throw. *)
Definition lift {A} (r : Error + A) : Synth A :=
  fun t =>
    match r with
    | inl e => inl e
    | inr a => inr (a, t)
    end.

(** [arr[idx].field]: reading a property of [undefined] throws. *)
Definition at_index {A} (arr : list A) (idx : nat) : Error + A :=
  match arr !! idx with
  | Some x => inr x
  | None => inl (TypeError "Cannot read properties of undefined")
  end.

(** [arr.map((s, idx) => ...)] from index [idx] on. *)
Fixpoint map_idx {A B} (f : A -> nat -> Error + B) (idx : nat) (arr : list A)
    : Error + list B :=
  match arr with
  | [] => inr []
  | s :: arr' =>
      match f s idx with
      | inl e => inl e
      | inr y =>
          match map_idx f (S idx) arr' with
          | inl e => inl e
          | inr ys => inr (y :: ys)
          end
      end
  end.

Module AppMeshService.

Record t := {
  node : Path;
  envoyFargateServices : list EnvoyFargateService.t;
  virtualService : Path;
}.

(** The name both the virtual service and the A record are given. *)
Definition serviceName (props : AppMeshServiceProps) : string :=
  toLowerCase
    (props_name props +:+ "." +:+ zoneName (hostedZone (props_environment props))).

Definition constructor (scope : Path) (id : string) (props : AppMeshServiceProps)
    : Synth t :=
  let* this := new scope id (cdk_Construct "AppMeshService") in

  (* Create EnvoyFargateServices. *)
  let* envoyFargateServices :=
    mapM (fun r =>
      EnvoyFargateService.constructor this ("EnvoyFargateService_" +:+ route_name r) {|
        props_meta := {| meta_name := route_name r; meta_port := props_port props |};
        props_env := props_environment props;
      |}) (props_routes props) in

  (* Create a VirtualRouter. *)
  let* virtualRouter :=
    new this ("VirtualRouter_" +:+ props_name props) (appmesh_VirtualRouter {|
      vr_mesh := mesh (props_environment props);
      vr_listeners := [VirtualRouterListener_http (props_port props)];
    |}) in

  (* Create weighted targets. *)
  let* weightedTargets :=
    lift (map_idx (fun s idx =>
      match at_index (props_routes props) idx with
      | inl e => inl e
      | inr r =>
          inr {|
            wt_virtualNode := EnvoyFargateService.virtualNode s;
            weight := route_weight r;
          |}
      end) 0 envoyFargateServices) in

  (* [virtualRouter.addRoute] creates the route as a child of the router. *)
  new virtualRouter "VirtualRoute" (appmesh_Route {|
    routeName := "Route_" +:+ props_name props;
    routeSpec := RouteSpec_http weightedTargets;
  |}) ;;;

  (* Create a VirtualService. *)
  let* virtualService :=
    new this ("VirtualService_" +:+ props_name props) (appmesh_VirtualService {|
      virtualServiceName := serviceName props;
      virtualServiceProvider := VirtualServiceProvider_virtualRouter virtualRouter;
    |}) in

  (* Create an A record to the hosted zone to avoid the IP address lookup error. *)
  new this ("ARecord_" +:+ props_name props) (route53_ARecord {|
    zone := hostedZone (props_environment props);
    recordName := serviceName props;
    target := RecordTarget_fromIpAddresses ["10.10.10.10"];
  |}) ;;;

  ret {|
    node := this;
    envoyFargateServices := envoyFargateServices;
    virtualService := virtualService;
  |}.

(** Add other AppMeshService a backend. *)
Definition addBackends (this service : t) : Synth unit :=
  forEach (fun from : EnvoyFargateService.t =>
    call (AddBackend (EnvoyFargateService.virtualNode from) (virtualService service)) ;;;
    forEach (fun to : EnvoyFargateService.t =>
      call (AllowTo
        (EnvoyFargateService.fargateService from)
        (EnvoyFargateService.fargateService to)
        (Port_tcp (meta_port (EnvoyFargateService.meta to)))
        ("Allow inbound traffic from " +:+ meta_name (EnvoyFargateService.meta from)
           +:+ " to " +:+ meta_name (EnvoyFargateService.meta to)
           +:+ " (TCP " +:+ number_toString (meta_port (EnvoyFargateService.meta to))
           +:+ ")"))
    ) (envoyFargateServices service)
  ) (envoyFargateServices this).

End AppMeshService.

(** ** [lib/aws-app-mesh-weighted-routing-stack.ts] *)

(** The name of a mesh created without one is a deploy-time value. *)
Definition generated_name (p : Path) : string :=
  "${" +:+ String.concat "/" p +:+ "}".

Module AwsAppmeshWeightedRoutingStack.

Record t := {
  node : Path;
  serviceA : AppMeshService.t;
  serviceB : AppMeshService.t;
}.

(** [super(scope, id, props)] registers the stack; that [cdk.Stack] refuses
    an id it cannot use as a stack name is not modelled. *)
Definition constructor (scope : Path) (id : string) : Synth t :=
  let* this := new scope id cdk_Stack in

  let* vpc := new this "VPC" (ec2_Vpc 2) in
  let* mesh := new this "Mesh" appmesh_Mesh in
  let* namespace :=
    new this "namespace" (cloudmap_PrivateDnsNamespace "cloudmap.local" vpc) in
  let* cluster := new this "Cluster" (ecs_Cluster vpc) in
  let* hostedZone :=
    new this "PrivateHostedZone" (route53_PrivateHostedZone "appmesh.local" vpc) in

  (* Common properties to be used in the below. *)
  let environment := {|
    mesh := {| mesh_node := mesh; meshName := generated_name mesh |};
    namespace := {| namespace_node := namespace; namespaceName := "cloudmap.local" |};
    cluster := {| cluster_node := cluster; cluster_vpc := vpc |};
    hostedZone := {| zone_node := hostedZone; zoneName := "appmesh.local" |};
  |} in

  let* serviceA :=
    AppMeshService.constructor this "AppMeshServiceA" {|
      props_name := "serviceA";
      props_port := 3000;
      props_routes := [
        {| route_name := "serviceA"; route_weight := 1 |}
      ];
      props_environment := environment;
    |} in

  let* serviceB :=
    AppMeshService.constructor this "AppMeshServiceB" {|
      props_name := "serviceB";
      props_port := 3000;
      props_routes := [
        {| route_name := "serviceB_v1"; route_weight := 4 |};
        {| route_name := "serviceB_v2"; route_weight := 1 |}
      ];
      props_environment := environment;
    |} in

  (* Add service B as a backend of service A. *)
  AppMeshService.addBackends serviceA serviceB ;;;

  (* Add external load balancer to the fargate service of service A. *)
  let* front := lift (at_index (AppMeshService.envoyFargateServices serviceA) 0) in
  EnvoyFargateService.createExternalLoadBalancer front ;;;

  ret {| node := this; serviceA := serviceA; serviceB := serviceB |}.

End AwsAppmeshWeightedRoutingStack.

(** [bin/aws-app-mesh-weighted-routing.ts]: a fresh [cdk.App] and the stack
    below it. *)
Definition App : Path := [].

Definition main : Error + (AwsAppmeshWeightedRoutingStack.t * Tree) :=
  AwsAppmeshWeightedRoutingStack.constructor App "AwsAppmeshWeightedRoutingStack" [].

(** ** [containers/serviceA/app.js] *)

Unset Elimination Schemes.
Inductive JSON :=
| JSON_null
| JSON_bool (b : bool)
| JSON_number (n : Z)
| JSON_string (s : string)
| JSON_array (items : list JSON)
| JSON_object (members : list (string * JSON)).
Set Elimination Schemes.

Module Gateway.
Section Gateway.

(** What a rejected promise carries, and [JSON.stringify] on it. *)
Variable Failure : Type.
Variable JSON_stringify : Failure -> string.

Record AxiosResponse := { data : JSON }.

(** How [await axios.get(url)] settles. *)
Inductive Settled :=
| fulfilled (resp : AxiosResponse)
| rejected (e : Failure).

(** The network: what a request to a URL settles to. *)
Variable axios_get : string -> Settled.

(** The response object of express, and the error console. *)
Record Response := {
  statusCode : Z;
  body : option JSON;
  finished : bool;
}.

Record World := {
  res : Response;
  console : list Failure;
}.

(** A fresh response has status 200 and nothing sent. *)
Definition fresh : World := {|
  res := {| statusCode := 200; body := None; finished := false |};
  console := [];
|}.

(** A handler body runs on the world and either throws or completes. *)
Definition Handler (A : Type) : Type := World -> (Failure + A) * World.

Definition hbind {A B} (m : Handler A) (f : A -> Handler B) : Handler B :=
  fun w =>
    match m w with
    | (inl e, w') => (inl e, w')
    | (inr a, w') => f a w'
    end.

(** [try { body } catch (e) { handler }] *)
Definition try_catch {A} (body : Handler A) (handler : Failure -> Handler A)
    : Handler A :=
  fun w =>
    match body w with
    | (inl e, w') => handler e w'
    | (inr a, w') => (inr a, w')
    end.

(** [await p]: a rejection is thrown. *)
Definition await (p : Settled) : Handler AxiosResponse :=
  fun w =>
    match p with
    | fulfilled resp => (inr resp, w)
    | rejected e => (inl e, w)
    end.

Definition res_status (code : Z) : Handler unit :=
  fun w => (inr tt, {|
    res := {| statusCode := code; body := body (res w); finished := finished (res w) |};
    console := console w;
  |}).

Definition res_end : Handler unit :=
  fun w => (inr tt, {|
    res := {| statusCode := statusCode (res w); body := body (res w); finished := true |};
    console := console w;
  |}).

(** [res.json(v)] on a response that has not been sent; express hands
    every handler of this program such a response. *)
Definition res_json (v : JSON) : Handler unit :=
  fun w => (inr tt, {|
    res := {| statusCode := statusCode (res w); body := Some v; finished := true |};
    console := console w;
  |}).

Definition console_error (e : Failure) : Handler unit :=
  fun w => (inr tt, {| res := res w; console := console w ++ [e] |}).

(** [app.get('/health', ...)] *)
Definition get_health : Handler unit :=
  hbind (res_status 200) (fun _ => res_end).

(** [app.get('/serviceb', ...)] *)
Definition get_serviceb : Handler unit :=
  try_catch
    (hbind (await (axios_get "http://serviceb.appmesh.local:3000/version")) (fun resp =>
     res_json (JSON_object [("serviceB", data resp)])))
    (fun e =>
     hbind (console_error e) (fun _ =>
     res_json (JSON_object [("error", JSON_string (JSON_stringify e))]))).

End Gateway.
End Gateway.

(** ** Reading a tree *)

(** The constructs of one kind, with their paths, in creation order. *)
Definition select {B} (kind : Resource -> option B) (t : Tree) : list (Path * B) :=
  omap (fun d =>
    match d with
    | New p r => (fun b => (p, b)) <$> kind r
    | _ => None
    end) t.

Definition as_FargateService (r : Resource) : option FargateServiceProps :=
  match r with ecs_FargateService x => Some x | _ => None end.
Definition as_VirtualNode (r : Resource) : option VirtualNodeProps :=
  match r with appmesh_VirtualNode x => Some x | _ => None end.
Definition as_VirtualRouter (r : Resource) : option VirtualRouterProps :=
  match r with appmesh_VirtualRouter x => Some x | _ => None end.
Definition as_Route (r : Resource) : option RouteProps :=
  match r with appmesh_Route x => Some x | _ => None end.
Definition as_VirtualService (r : Resource) : option VirtualServiceProps :=
  match r with appmesh_VirtualService x => Some x | _ => None end.
Definition as_ARecord (r : Resource) : option ARecordProps :=
  match r with route53_ARecord x => Some x | _ => None end.
Definition as_LoadBalancer (r : Resource) : option ApplicationLoadBalancerProps :=
  match r with elbv2_ApplicationLoadBalancer x => Some x | _ => None end.
Definition as_Listener (r : Resource) : option ListenerProps :=
  match r with elbv2_ApplicationListener x => Some x | _ => None end.
Definition as_TargetGroup (r : Resource) : option TargetGroupProps :=
  match r with elbv2_ApplicationTargetGroup x => Some x | _ => None end.

(** The [addBackend] calls: (virtual node, virtual service). *)
Definition backends (t : Tree) : list (Path * Path) :=
  omap (fun d => match d with AddBackend n s => Some (n, s) | _ => None end) t.

(** The [allowTo] calls: (from, to, port). *)
Definition grants (t : Tree) : list (Path * Path * Port) :=
  omap (fun d => match d with AllowTo f t p _ => Some (f, t, p) | _ => None end) t.

(** ** What a run adds to the tree *)

(** Adding declarations to a tree in order; a path that is taken stops it. *)
Fixpoint commit (delta : list Decl) (t : Tree) : Error + Tree :=
  match delta with
  | [] => inr t
  | d :: delta' =>
      match new_path d with
      | Some p =>
          if decide (p ∈ paths t) then inl (ConstructExists p)
          else commit delta' (t ++ [d])
      | None => commit delta' (t ++ [d])
      end
  end.

(** [m] returns [a] and adds exactly [delta], whatever the tree it starts
    from, and throws exactly when a path of [delta] is taken. *)
Definition emits {A} (m : Synth A) (a : A) (delta : list Decl) : Prop :=
  forall t, m t = match commit delta t with
                  | inl e => inl e
                  | inr t' => inr (a, t')
                  end.

(** What a run adds to the empty tree. *)
Definition emitted {A} (m : Synth A) : list Decl :=
  match m [] with
  | inr (_, t) => t
  | inl _ => []
  end.

(** *** The declarations of each class, as functions of the arguments *)

Definition EnvoyFargateService_object (scope : Path) (id : string)
    (props : EnvoyFargateServiceProps) : EnvoyFargateService.t :=
  let this := scope ++ [id] in
  {|
    EnvoyFargateService.this := {|
      EnvoyFargateService.node := this;
      EnvoyFargateService.meta := props_meta props;
      EnvoyFargateService.environment := props_env props;
    |};
    EnvoyFargateService.fargateService :=
      this ++ ["FargateService_" +:+ meta_name (props_meta props)];
    EnvoyFargateService.virtualNode :=
      this ++ ["VirtualNode_" +:+ meta_name (props_meta props)];
  |}.

(** The constructor of a unit never collides with itself, so what it adds
    can be read off a run on the empty tree. *)
Definition EnvoyFargateService_decls (scope : Path) (id : string)
    (props : EnvoyFargateServiceProps) : list Decl :=
  emitted (EnvoyFargateService.constructor scope id props).

Definition createExternalLoadBalancer_decls (this : EnvoyFargateService.t) : list Decl :=
  emitted (EnvoyFargateService.createExternalLoadBalancer this).

(** The unit a group creates for one of its routes. *)
Definition unit_id (r : AppMeshRoute) : string :=
  "EnvoyFargateService_" +:+ route_name r.

Definition unit_props (props : AppMeshServiceProps) (r : AppMeshRoute)
    : EnvoyFargateServiceProps :=
  {|
    props_meta := {| meta_name := route_name r; meta_port := props_port props |};
    props_env := props_environment props;
  |}.

Definition unit_of (this : Path) (props : AppMeshServiceProps) (r : AppMeshRoute)
    : EnvoyFargateService.t :=
  EnvoyFargateService_object this (unit_id r) (unit_props props r).

Definition unit_decls (this : Path) (props : AppMeshServiceProps) (r : AppMeshRoute)
    : list Decl :=
  EnvoyFargateService_decls this (unit_id r) (unit_props props r).

Definition AppMeshService_object (scope : Path) (id : string)
    (props : AppMeshServiceProps) : AppMeshService.t :=
  let this := scope ++ [id] in
  {|
    AppMeshService.node := this;
    AppMeshService.envoyFargateServices := unit_of this props <$> props_routes props;
    AppMeshService.virtualService := this ++ ["VirtualService_" +:+ props_name props];
  |}.

(** The router of a group and the route registered on it. *)
Definition router_of (scope : Path) (id : string) (props : AppMeshServiceProps) : Path :=
  (scope ++ [id]) ++ ["VirtualRouter_" +:+ props_name props].

(** Each unit's mesh node paired with the weight of its route, in the order
    of the routes. *)
Definition paired_targets (this : Path) (props : AppMeshServiceProps)
    : list WeightedTarget :=
  (fun r => {|
     wt_virtualNode := EnvoyFargateService.virtualNode (unit_of this props r);
     weight := route_weight r;
   |}) <$> props_routes props.

Definition AppMeshService_decls (scope : Path) (id : string)
    (props : AppMeshServiceProps) : list Decl :=
  let this := scope ++ [id] in
  [New this (cdk_Construct "AppMeshService")]
  ++ concat (unit_decls this props <$> props_routes props)
  ++ [New (router_of scope id props) (appmesh_VirtualRouter {|
        vr_mesh := mesh (props_environment props);
        vr_listeners := [VirtualRouterListener_http (props_port props)];
      |});
      New (router_of scope id props ++ ["VirtualRoute"]) (appmesh_Route {|
        routeName := "Route_" +:+ props_name props;
        routeSpec := RouteSpec_http (paired_targets this props);
      |});
      New (this ++ ["VirtualService_" +:+ props_name props]) (appmesh_VirtualService {|
        virtualServiceName := AppMeshService.serviceName props;
        virtualServiceProvider :=
          VirtualServiceProvider_virtualRouter (router_of scope id props);
      |});
      New (this ++ ["ARecord_" +:+ props_name props]) (route53_ARecord {|
        zone := hostedZone (props_environment props);
        recordName := AppMeshService.serviceName props;
        target := RecordTarget_fromIpAddresses ["10.10.10.10"];
      |})].

Definition addBackends_decls (this service : AppMeshService.t) : list Decl :=
  emitted (AppMeshService.addBackends this service).

(** ** Properties of runs *)

(** What a run returns and adds does not depend on the tree it starts from. *)
Definition deterministic {A} (m : Synth A) : Prop :=
  forall t1 t2 r1 r2 t1' t2',
    m t1 = inr (r1, t1') -> m t2 = inr (r2, t2') ->
    r1 = r2 /\ exists delta, t1' = t1 ++ delta /\ t2' = t2 ++ delta.

(** The construction is refused. *)
Definition rejected {A} (r : Error + A) : Prop := exists e, r = inl e.

(** Two calls in a row on the same unit both succeed and leave two more
    load balancers. *)
Definition attach_twice_gives_two (this : EnvoyFargateService.t) (t : Tree) : Prop :=
  exists t1 t2,
    EnvoyFargateService.createExternalLoadBalancer this t = inr (tt, t1) /\
    EnvoyFargateService.createExternalLoadBalancer this t1 = inr (tt, t2) /\
    length (select as_LoadBalancer t2) = (length (select as_LoadBalancer t) + 2)%nat.

(** ** The deployed topology, for reference *)

(** The values the stack constructor passes to the two groups. *)
Definition stack_node : Path := App ++ ["AwsAppmeshWeightedRoutingStack"].

Definition stack_environment : AppEnvironment := {|
  mesh := {|
    mesh_node := stack_node ++ ["Mesh"];
    meshName := generated_name (stack_node ++ ["Mesh"]);
  |};
  namespace := {|
    namespace_node := stack_node ++ ["namespace"];
    namespaceName := "cloudmap.local";
  |};
  cluster := {|
    cluster_node := stack_node ++ ["Cluster"];
    cluster_vpc := stack_node ++ ["VPC"];
  |};
  hostedZone := {|
    zone_node := stack_node ++ ["PrivateHostedZone"];
    zoneName := "appmesh.local";
  |};
|}.

Definition serviceA_props : AppMeshServiceProps := {|
  props_name := "serviceA";
  props_port := 3000;
  props_routes := [{| route_name := "serviceA"; route_weight := 1 |}];
  props_environment := stack_environment;
|}.

Definition serviceB_props : AppMeshServiceProps := {|
  props_name := "serviceB";
  props_port := 3000;
  props_routes := [
    {| route_name := "serviceB_v1"; route_weight := 4 |};
    {| route_name := "serviceB_v2"; route_weight := 1 |}
  ];
  props_environment := stack_environment;
|}.

Definition serviceA_object : AppMeshService.t :=
  AppMeshService_object stack_node "AppMeshServiceA" serviceA_props.

Definition serviceB_object : AppMeshService.t :=
  AppMeshService_object stack_node "AppMeshServiceB" serviceB_props.

(** The unit of service A that is given the load balancer. *)
Definition front_unit : EnvoyFargateService.t :=
  unit_of (stack_node ++ ["AppMeshServiceA"]) serviceA_props
    {| route_name := "serviceA"; route_weight := 1 |}.

(** The tree [main] builds. *)
Definition main_tree : Tree :=
  match main with
  | inr (_, t) => t
  | inl _ => []
  end.

(** ** More of the tree *)

Definition as_TaskDefinition (r : Resource) : option FargateTaskDefinitionProps :=
  match r with ecs_FargateTaskDefinition x => Some x | _ => None end.
Definition as_Container (r : Resource) : option ContainerDefinitionOptions :=
  match r with ecs_ContainerDefinition x => Some x | _ => None end.

#[global] Instance Protocol_eq_dec : EqDecision Protocol.
Proof. solve_decision. Defined.

(** The [addPortMappings] calls: (container, mapping). *)
Definition portMappings (t : Tree) : list (Path * PortMapping) :=
  omap (fun d => match d with AddPortMappings c pm => Some (c, pm) | _ => None end) t.

(** ** [containers/serviceB_v2/app.js] *)

Module ServiceB_v2.
Section ServiceB_v2.

Variable Failure : Type.

(** [app.get('/health', ...)] *)
Definition get_health : Gateway.Handler Failure unit :=
  Gateway.hbind Failure (Gateway.res_status Failure 200) (fun _ => Gateway.res_end Failure).

(** [app.get('/version', ...)] *)
Definition get_version : Gateway.Handler Failure unit :=
  Gateway.res_json Failure (JSON_object [("version", JSON_string "v2")]).

End ServiceB_v2.
End ServiceB_v2.

Definition as_Role (r : Resource) : option RoleProps :=
  match r with iam_Role x => Some x | _ => None end.

(** * Proofs *)

(** ** Lemmas on the construction monad *)

Lemma paths_app (t1 t2 : Tree) : paths (t1 ++ t2) = paths t1 ++ paths t2.
Proof. apply omap_app. Qed.

Lemma commit_app (d1 d2 : list Decl) (t : Tree) :
  commit (d1 ++ d2) t =
  match commit d1 t with
  | inl e => inl e
  | inr t' => commit d2 t'
  end.
Proof.
  revert t. induction d1 as [|d d1 IH]; intros t; simpl; [done|].
  destruct (new_path d) as [p|]; [case_decide; [done|]|]; apply IH.
Qed.

Lemma commit_inr (d : list Decl) (t t' : Tree) :
  commit d t = inr t' -> t' = t ++ d.
Proof.
  revert t. induction d as [|x d IH]; intros t; simpl.
  - intros [= <-]. by rewrite app_nil_r.
  - destruct (new_path x) as [p|]; [case_decide; [done|]|];
      intros Hc%IH; by rewrite Hc, <- app_assoc.
Qed.

Lemma paths_cons (x : Decl) (d : Tree) :
  paths (x :: d) = match new_path x with Some p => p :: paths d | None => paths d end.
Proof. done. Qed.

Lemma commit_succeeds (d : list Decl) (t : Tree) :
  (exists t', commit d t = inr t') <->
  NoDup (paths d) /\ (forall p, p ∈ paths d -> p ∉ paths t).
Proof.
  revert t. induction d as [|x d IH]; intros t.
  - simpl. split; [intros _|by eauto].
    split; [apply NoDup_nil_2|]. intros p Hp. by apply elem_of_nil in Hp.
  - rewrite paths_cons. simpl. destruct (new_path x) as [p|] eqn:Hx.
    + case_decide as Hin.
      * split; [by intros [t' ?]|]. intros [_ Hd]. destruct (Hd p); [left|done].
      * rewrite IH, NoDup_cons. setoid_rewrite paths_app.
        rewrite (paths_cons x []), Hx. unfold paths at 3. simpl. 
        split.
        -- intros [Hnd Hd]. repeat split; [|done|].
           ++ intros Hp. apply (Hd p Hp). apply elem_of_app. right. left.
           ++ intros q [->|Hq]%elem_of_cons; [done|].
              intros Hq'. apply (Hd q Hq). apply elem_of_app. by left.
        -- intros [[Hp Hnd] Hd]. split; [done|].
           intros q Hq [Hq'|Hq']%elem_of_app.
           ++ apply (Hd q); [by right|done].
           ++ apply list_elem_of_singleton in Hq' as ->. done.
    + rewrite IH. setoid_rewrite paths_app.
      rewrite (paths_cons x []), Hx. unfold paths at 3. simpl.
      by setoid_rewrite app_nil_r.
Qed.

Lemma emits_ret {A} (a : A) : emits (ret a) a [].
Proof. intros t. reflexivity. Qed.

Lemma emits_new (scope : Path) (id : string) (r : Resource) :
  emits (new scope id r) (scope ++ [id]) [New (scope ++ [id]) r].
Proof. intros t. unfold new. cbn [commit new_path]. destruct (decide _); reflexivity. Qed.

Lemma emits_call (d : Decl) : new_path d = None -> emits (call d) tt [d].
Proof. intros H t. unfold call. simpl. by rewrite H. Qed.

Lemma emits_lift {A} (a : A) : emits (lift (inr a)) a [].
Proof. intros t. reflexivity. Qed.

Lemma emits_bind {A B} (m : Synth A) (f : A -> Synth B) a b d1 d2 :
  emits m a d1 -> emits (f a) b d2 -> emits (bind m f) b (d1 ++ d2).
Proof.
  intros Hm Hf t. unfold bind. rewrite Hm, commit_app.
  destruct (commit d1 t); [done|]. apply Hf.
Qed.

Lemma emits_mapM {A B} (f : A -> Synth B) (g : A -> B) (h : A -> list Decl) l :
  (forall x, emits (f x) (g x) (h x)) ->
  emits (mapM f l) (g <$> l) (concat (h <$> l)).
Proof.
  intros Hf. induction l as [|x l IH]; simpl; [apply emits_ret|].
  eapply emits_bind; [apply Hf|].
  rewrite <- (app_nil_r (concat _)).
  eapply emits_bind; [apply IH|apply emits_ret].
Qed.

Lemma emits_forEach {A} (f : A -> Synth unit) (h : A -> list Decl) l :
  (forall x, emits (f x) tt (h x)) ->
  emits (forEach f l) tt (concat (h <$> l)).
Proof.
  intros Hf. induction l as [|x l IH]; simpl; [apply emits_ret|].
  eapply emits_bind; [apply Hf|apply IH].
Qed.

(** A run that can succeed at all adds to the empty tree what it adds to
    every tree. *)
Lemma emits_emitted {A} (m : Synth A) a d :
  emits m a d -> NoDup (paths d) -> emitted m = d.
Proof.
  intros Hm Hd. unfold emitted. rewrite Hm.
  destruct (proj2 (commit_succeeds d [])) as [t' Ht'].
  { split; [done|]. intros p _. apply not_elem_of_nil. }
  rewrite Ht'. by apply commit_inr in Ht'.
Qed.

Lemma emits_success {A} (m : Synth A) a d t r t' :
  emits m a d -> m t = inr (r, t') -> r = a /\ t' = t ++ d.
Proof.
  intros Hm. rewrite Hm. destruct (commit d t) eqn:Hc; [done|].
  intros [= <- <-]. split; [done|]. by apply commit_inr.
Qed.

Ltac emits_step :=
  first
    [ apply emits_ret
    | apply emits_new
    | apply emits_call; reflexivity
    | apply emits_lift
    | eapply emits_bind ].

Lemma emits_assoc {A B C} (m : Synth A) (f : A -> Synth B) (g : B -> Synth C) c d :
  emits (bind m (fun a => bind (f a) g)) c d -> emits (bind (bind m f) g) c d.
Proof.
  intros H t. rewrite <- H. unfold bind. by destruct (m t) as [e|[a t']].
Qed.

Ltac emits_then tac :=
  cbv beta;
  repeat match goal with
         | |- emits (bind (bind _ _) _) _ _ => apply emits_assoc
         end;
  eapply emits_bind; [tac|].

(** *** Distinct paths *)

Ltac path_neq :=
  let H := fresh in
  intros H; rewrite <- ?app_assoc in H; simpl in H;
  apply app_inv_head in H; simplify_eq/=.

Ltac paths_NoDup :=
  simpl;
  repeat (apply NoDup_cons; split;
          [ rewrite ?not_elem_of_cons; repeat split;
            first [ apply not_elem_of_nil | path_neq ]
          | ]);
  apply NoDup_nil_2.

Lemma emitted_elim {A} (m : Synth A) a (P : list Decl -> Prop) :
  (exists d, emits m a d /\ NoDup (paths d) /\ P d) ->
  emits m a (emitted m) /\ P (emitted m).
Proof.
  intros (d & Hm & Hd & HP). by rewrite (emits_emitted m a d Hm Hd).
Qed.

(** Turns a goal about [emitted m] into one about declarations found by
    running [m] symbolically. *)
Ltac by_running m :=
  match goal with
  | |- _ /\ ?G =>
      let P := eval pattern (emitted m) in G in
      match P with ?P' _ => apply (emitted_elim m _ P') end
  end;
  eexists; split; [|split].

Ltac unfold_unit :=
  unfold EnvoyFargateService.constructor; cbv zeta;
  unfold EnvoyFargateService.createTaskDefinition, EnvoyFargateService.createTaskRole,
    EnvoyFargateService.createExecutionRole, EnvoyFargateService.addAppContainer,
    EnvoyFargateService.addEnvoyContainer, EnvoyFargateService.addXRayContainer,
    EnvoyFargateService.createFargateService, EnvoyFargateService.createVirtualNode.

Ltac prefix_solve :=
  first [ reflexivity | apply prefix_app_r; prefix_solve ].

Ltac prefix_paths :=
  simpl; repeat (apply Forall_cons; split; [ prefix_solve | ]);
  apply Forall_nil_2.

(** One unit: what its constructor returns and adds. *)
Lemma EnvoyFargateService_spec (scope : Path) (id : string)
    (props : EnvoyFargateServiceProps) :
  let self := scope ++ [id] in
  let name := meta_name (props_meta props) in
  let d := EnvoyFargateService_decls scope id props in
  emits (EnvoyFargateService.constructor scope id props)
    (EnvoyFargateService_object scope id props) d /\
  NoDup (paths d) /\
  Forall (fun p => self `prefix_of` p) (paths d) /\
  self ∈ paths d /\
  select as_FargateService d =
    [(self ++ ["FargateService_" +:+ name], {|
        fs_cluster := cluster (props_env props);
        fs_taskDefinition := self ++ ["TaskDefinition_" +:+ name];
        desiredCount := 1;
        vpcSubnets := PRIVATE;
        cloudMapOptions := {|
          cloudMapNamespace := namespace (props_env props);
          cloudMap_container :=
            (self ++ ["TaskDefinition_" +:+ name]) ++ ["AppContainer_" +:+ name];
          dnsRecordType := DnsRecordType_A;
          dnsTtl := Duration_minutes 0;
          cloudMap_name := name;
        |};
      |})] /\
  select as_VirtualNode d =
    [(self ++ ["VirtualNode_" +:+ name], {|
        vn_mesh := mesh (props_env props);
        virtualNodeName := name;
        serviceDiscovery :=
          ServiceDiscovery_cloudMap (self ++ ["FargateService_" +:+ name]);
        vn_listeners := [{|
          listener_port := meta_port (props_meta props);
          healthCheck := {|
            healthyThreshold := 3;
            interval := Duration_seconds 5;
            path := "/health";
            timeout := Duration_seconds 2;
            unhealthyThreshold := 2;
          |};
        |}];
        accessLog := "/dev/stdout";
      |})] /\
  select as_VirtualRouter d = [] /\
  select as_Route d = [] /\
  select as_VirtualService d = [] /\
  select as_ARecord d = [] /\
  select as_LoadBalancer d = [] /\
  backends d = [] /\
  grants d = [].
Proof.
  intros self name d. subst self name d. unfold EnvoyFargateService_decls.
  by_running (EnvoyFargateService.constructor scope id props).
  - unfold_unit. repeat (emits_then emits_step). apply emits_ret.
  - paths_NoDup.
  - split; [paths_NoDup|]. split; [prefix_paths|]. split; [by left|]. by repeat split.
Qed.

(** *** Indexing the routes while mapping over the units *)

Lemma map_idx_at_index {A U B} (arr : list A) (G : A -> U) (F : U -> A -> B) pre l :
  arr = pre ++ l ->
  map_idx (fun s idx =>
    match at_index arr idx with
    | inl e => inl e
    | inr r => inr (F s r)
    end) (length pre) (G <$> l)
  = inr ((fun r => F (G r) r) <$> l).
Proof.
  revert pre. induction l as [|r l IH]; intros pre Harr; [done|].
  rewrite fmap_cons. cbn [map_idx].
  unfold at_index at 1.
  replace (arr !! length pre) with (Some r)
    by (by rewrite Harr, list_lookup_middle).
  specialize (IH (pre ++ [r])). rewrite length_app in IH. simpl in IH.
  rewrite Nat.add_1_r in IH.
  rewrite IH; [done|]. by rewrite <- app_assoc.
Qed.

(** *** The group constructor *)

Lemma AppMeshService_emits (scope : Path) (id : string) (props : AppMeshServiceProps) :
  emits (AppMeshService.constructor scope id props)
    (AppMeshService_object scope id props)
    (AppMeshService_decls scope id props).
Proof.
  unfold AppMeshService.constructor, AppMeshService_decls.
  emits_then ltac:(apply emits_new).
  emits_then ltac:(
    apply (emits_mapM _ (unit_of (scope ++ [id]) props) (unit_decls (scope ++ [id]) props));
    intros r; apply EnvoyFargateService_spec).
  change [?a; ?b; ?c; ?d] with ([a] ++ [] ++ [b] ++ [c] ++ [d] ++ []).
  emits_then ltac:(apply emits_new).
  emits_then ltac:(
    rewrite (map_idx_at_index (props_routes props) (unit_of (scope ++ [id]) props)
               (fun s r => {| wt_virtualNode := EnvoyFargateService.virtualNode s;
                              weight := route_weight r |}) []) by done;
    apply emits_lift).
  emits_then ltac:(apply emits_new).
  emits_then ltac:(apply emits_new).
  emits_then ltac:(apply emits_new).
  apply emits_ret.
Qed.

(** *** Reading a concatenation *)

Lemma omap_concat_nil {A B C} (f : B -> option C) (h : A -> list B) (l : list A) :
  (forall x, omap f (h x) = []) -> omap f (concat (h <$> l)) = [].
Proof.
  intros Hh. induction l as [|x l IH]; [done|].
  rewrite fmap_cons. simpl. by rewrite omap_app, Hh, IH.
Qed.

Lemma omap_concat_singleton {A B C} (f : B -> option C) (h : A -> list B)
    (g : A -> C) (l : list A) :
  (forall x, omap f (h x) = [g x]) -> omap f (concat (h <$> l)) = g <$> l.
Proof.
  intros Hh. induction l as [|x l IH]; [done|].
  rewrite !fmap_cons. simpl. by rewrite omap_app, Hh, IH.
Qed.

(** *** Keys: the child of [this] a path lies below *)

Lemma child_inj (this : Path) (a b : string) (k1 k2 : Path) :
  (this ++ [a]) ++ k1 = (this ++ [b]) ++ k2 -> a = b.
Proof. rewrite <- !app_assoc. intros H%app_inv_head. by simplify_eq/=. Qed.

Lemma prefix_child_ne (this : Path) (a b : string) (p : Path) :
  a <> b -> (this ++ [a]) `prefix_of` p -> ~ (this ++ [b]) `prefix_of` p.
Proof.
  intros Hab [k1 ->] [k2 Hk]. apply Hab. by apply child_inj in Hk.
Qed.

Lemma prefix_child_self (this : Path) (a : string) :
  ~ (this ++ [a]) `prefix_of` this.
Proof.
  intros [k Hk]. apply (f_equal length) in Hk.
  rewrite !length_app in Hk. simpl in Hk. lia.
Qed.

Lemma unit_id_inj (r1 r2 : AppMeshRoute) :
  unit_id r1 = unit_id r2 -> route_name r1 = route_name r2.
Proof. unfold unit_id. intros H. by simplify_eq/=. Qed.

(** *** The paths of a group *)

Section group_paths.
Context (this : Path) (props : AppMeshServiceProps).

Lemma unit_paths_prefix r p :
  p ∈ paths (unit_decls this props r) -> (this ++ [unit_id r]) `prefix_of` p.
Proof.
  intros Hp.
  destruct (EnvoyFargateService_spec this (unit_id r) (unit_props props r))
    as (_ & _ & Hpre & _).
  by apply (proj1 (Forall_forall _ _) Hpre).
Qed.

Lemma unit_paths_self r : this ++ [unit_id r] ∈ paths (unit_decls this props r).
Proof.
  by destruct (EnvoyFargateService_spec this (unit_id r) (unit_props props r))
    as (_ & _ & _ & Hself & _).
Qed.

Lemma unit_paths_NoDup r : NoDup (paths (unit_decls this props r)).
Proof.
  by destruct (EnvoyFargateService_spec this (unit_id r) (unit_props props r))
    as (_ & Hnd & _).
Qed.

Lemma units_paths_elem l p :
  p ∈ paths (concat (unit_decls this props <$> l)) ->
  exists r, r ∈ l /\ (this ++ [unit_id r]) `prefix_of` p.
Proof.
  induction l as [|r l IH]; rewrite ?fmap_cons; simpl.
  - intros H. by apply elem_of_nil in H.
  - rewrite paths_app, elem_of_app. intros [H|H].
    + exists r. split; [left|by apply unit_paths_prefix].
    + destruct (IH H) as (r' & Hr' & Hp). exists r'. split; [by right|done].
Qed.

Lemma units_paths_NoDup l :
  NoDup (paths (concat (unit_decls this props <$> l))) <-> NoDup (route_name <$> l).
Proof.
  induction l as [|r l IH]; rewrite ?fmap_cons; simpl.
  - split; intros _; apply NoDup_nil_2.
  - rewrite paths_app, NoDup_app, NoDup_cons, IH. split.
    + intros (_ & Hdis & Hl). split; [|done].
      intros (r' & Heq & Hr')%list_elem_of_fmap.
      apply (Hdis (this ++ [unit_id r])); [apply unit_paths_self|].
      assert (unit_id r = unit_id r') as -> by (unfold unit_id; by rewrite Heq).
      clear -Hr'. induction l as [|x l IHl]; [by apply elem_of_nil in Hr'|].
      rewrite fmap_cons. simpl. rewrite paths_app, elem_of_app.
      apply elem_of_cons in Hr' as [->|Hr']; [left; apply unit_paths_self|right; auto].
    + intros (Hr & Hl). split; [apply unit_paths_NoDup|]. split; [|done].
      intros p Hp (r' & Hr' & Hp')%units_paths_elem.
      apply unit_paths_prefix in Hp.
      destruct (decide (unit_id r = unit_id r')) as [Heq|Hne].
      * apply Hr. apply list_elem_of_fmap. exists r'.
        split; [by apply unit_id_inj|done].
      * by apply (prefix_child_ne this _ _ p Hne Hp).
Qed.
End group_paths.

Lemma AppMeshService_paths (scope : Path) (id : string) (props : AppMeshServiceProps) :
  let this := scope ++ [id] in
  paths (AppMeshService_decls scope id props) =
    [this]
    ++ paths (concat (unit_decls this props <$> props_routes props))
    ++ [router_of scope id props;
        router_of scope id props ++ ["VirtualRoute"];
        this ++ ["VirtualService_" +:+ props_name props];
        this ++ ["ARecord_" +:+ props_name props]].
Proof.
  intros this. unfold AppMeshService_decls. fold this.
  by rewrite !paths_app.
Qed.

Lemma AppMeshService_paths_prefix (scope : Path) (id : string)
    (props : AppMeshServiceProps) p :
  p ∈ paths (AppMeshService_decls scope id props) -> (scope ++ [id]) `prefix_of` p.
Proof.
  rewrite AppMeshService_paths. cbv zeta.
  rewrite !elem_of_app, !elem_of_cons, elem_of_nil. unfold router_of.
  intros [[->|[]]|[H|H]].
  - reflexivity.
  - apply units_paths_elem in H as (r & _ & Hp).
    etrans; [|exact Hp]. by apply prefix_app_r.
  - destruct H as [->|[->|[->|[->|[]]]]]; prefix_solve.
Qed.

Lemma AppMeshService_paths_NoDup (scope : Path) (id : string)
    (props : AppMeshServiceProps) :
  NoDup (paths (AppMeshService_decls scope id props)) <->
  NoDup (route_name <$> props_routes props).
Proof.
  rewrite AppMeshService_paths. cbv zeta.
  rewrite <- (units_paths_NoDup (scope ++ [id]) props).
  set (us := paths (concat _)).
  assert (Hus : forall p, p ∈ us ->
            exists r k, p = ((scope ++ [id]) ++ [unit_id r]) ++ k).
  { intros p (r & _ & k & ->)%units_paths_elem. eauto. }
  clearbody us. unfold router_of.
  rewrite !NoDup_app. split; [by intros (_ & _ & Hnd & _)|].
  intros Hnd. split; [apply NoDup_singleton|]. split; [|split; [done|split]].
  - intros p ->%list_elem_of_singleton. rewrite elem_of_app. intros [H|H].
    + destruct (Hus _ H) as (r & k & Hk). apply (prefix_child_self (scope ++ [id]) (unit_id r)).
      exists k. done.
    + revert H. rewrite !elem_of_cons, elem_of_nil.
      intros [H|[H|[H|[H|[]]]]]; revert H;
        rewrite <- (app_nil_r (scope ++ [id])) at 1; rewrite <- ?app_assoc;
        intros H%app_inv_head; discriminate.
  - intros p Hp. destruct (Hus _ Hp) as (r & k & ->).
    rewrite !elem_of_cons, elem_of_nil.
    intros [H|[H|[H|[H|[]]]]]; revert H; unfold unit_id;
      rewrite <- ?app_assoc; intros H%app_inv_head; by simplify_eq/=.
  - paths_NoDup.
Qed.

(** *** When a group is refused, and what a built group is *)

Lemma AppMeshService_fails (scope : Path) (id : string) (props : AppMeshServiceProps)
    (t : Tree) :
  ~ NoDup (route_name <$> props_routes props) ->
  rejected (AppMeshService.constructor scope id props t).
Proof.
  intros Hdup. unfold rejected. rewrite AppMeshService_emits.
  destruct (commit _ t) as [e|t'] eqn:Hc; [by eexists|].
  exfalso. apply Hdup, (AppMeshService_paths_NoDup scope id props).
  apply (commit_succeeds _ t). by eexists.
Qed.

Lemma AppMeshService_success (scope : Path) (id : string) (props : AppMeshServiceProps)
    (t : Tree) svc t' :
  AppMeshService.constructor scope id props t = inr (svc, t') ->
  svc = AppMeshService_object scope id props /\
  t' = t ++ AppMeshService_decls scope id props /\
  NoDup (route_name <$> props_routes props).
Proof.
  intros Hrun.
  destruct (emits_success _ _ _ _ _ _ (AppMeshService_emits scope id props) Hrun)
    as [-> ->].
  split; [done|]. split; [done|].
  destruct (decide (NoDup (route_name <$> props_routes props))) as [|Hdup]; [done|].
  destruct (AppMeshService_fails scope id props t Hdup) as [e He]. congruence.
Qed.

(** *** What a group contains *)

Lemma AppMeshService_view (scope : Path) (id : string) (props : AppMeshServiceProps) :
  let this := scope ++ [id] in
  let d := AppMeshService_decls scope id props in
  select as_VirtualRouter d =
    [(router_of scope id props, {|
        vr_mesh := mesh (props_environment props);
        vr_listeners := [VirtualRouterListener_http (props_port props)];
      |})] /\
  select as_Route d =
    [(router_of scope id props ++ ["VirtualRoute"], {|
        routeName := "Route_" +:+ props_name props;
        routeSpec := RouteSpec_http (paired_targets this props);
      |})] /\
  select as_VirtualService d =
    [(this ++ ["VirtualService_" +:+ props_name props], {|
        virtualServiceName := AppMeshService.serviceName props;
        virtualServiceProvider :=
          VirtualServiceProvider_virtualRouter (router_of scope id props);
      |})] /\
  select as_ARecord d =
    [(this ++ ["ARecord_" +:+ props_name props], {|
        zone := hostedZone (props_environment props);
        recordName := AppMeshService.serviceName props;
        target := RecordTarget_fromIpAddresses ["10.10.10.10"];
      |})] /\
  select as_LoadBalancer d = [] /\
  backends d = [] /\
  grants d = [].
Proof.
  intros this d. subst d. unfold AppMeshService_decls. fold this.
  unfold backends, grants, select. rewrite !omap_app.
  repeat split;
    (rewrite omap_concat_nil;
     [ reflexivity
     | intros r;
       destruct (EnvoyFargateService_spec this (unit_id r) (unit_props props r))
         as (_ & _ & _ & _ & _ & _ & ? & ? & ? & ? & ? & ? & ?); assumption ]).
Qed.

Lemma AppMeshService_units (scope : Path) (id : string) (props : AppMeshServiceProps) :
  let this := scope ++ [id] in
  let d := AppMeshService_decls scope id props in
  let units := unit_of this props <$> props_routes props in
  fst <$> select as_FargateService d = EnvoyFargateService.fargateService <$> units /\
  (fun x => desiredCount x.2) <$> select as_FargateService d
    = (fun _ => 1) <$> props_routes props /\
  (fun x => cloudMap_name (cloudMapOptions x.2)) <$> select as_FargateService d
    = route_name <$> props_routes props /\
  (fun x => cloudMapNamespace (cloudMapOptions x.2)) <$> select as_FargateService d
    = (fun _ => namespace (props_environment props)) <$> props_routes props /\
  fst <$> select as_VirtualNode d = EnvoyFargateService.virtualNode <$> units /\
  (fun x => virtualNodeName x.2) <$> select as_VirtualNode d
    = route_name <$> props_routes props /\
  (fun x => serviceDiscovery x.2) <$> select as_VirtualNode d
    = (fun u => ServiceDiscovery_cloudMap (EnvoyFargateService.fargateService u)) <$> units /\
  (fun x => (fun l => path (healthCheck l)) <$> vn_listeners x.2) <$> select as_VirtualNode d
    = (fun _ => ["/health"]) <$> props_routes props.
Proof.
  intros this d units. subst d units. unfold AppMeshService_decls. fold this.
  unfold select. rewrite !omap_app.
  erewrite (omap_concat_singleton _ _ _ (props_routes props)); cycle 1.
  { intros r.
    destruct (EnvoyFargateService_spec this (unit_id r) (unit_props props r))
      as (_ & _ & _ & _ & H & _). exact H. }
  erewrite (omap_concat_singleton _ _ _ (props_routes props)); cycle 1.
  { intros r.
    destruct (EnvoyFargateService_spec this (unit_id r) (unit_props props r))
      as (_ & _ & _ & _ & _ & H & _). exact H. }
  simpl. rewrite !app_nil_r, <- !list_fmap_compose. done.
Qed.

(** *** [addBackends] *)

Lemma list_prod_cons {A B} (a : A) (l : list A) (l' : list B) :
  list_prod (a :: l) l' = (pair a <$> l') ++ list_prod l l'.
Proof. done. Qed.

Lemma addBackends_spec (this service : AppMeshService.t) :
  let d := addBackends_decls this service in
  emits (AppMeshService.addBackends this service) tt d /\
  paths d = [] /\
  backends d =
    (fun from : EnvoyFargateService.t =>
       (EnvoyFargateService.virtualNode from, AppMeshService.virtualService service))
      <$> AppMeshService.envoyFargateServices this /\
  grants d =
    (fun ft : EnvoyFargateService.t * EnvoyFargateService.t =>
       (EnvoyFargateService.fargateService ft.1,
        EnvoyFargateService.fargateService ft.2,
        Port_tcp (meta_port (EnvoyFargateService.meta ft.2))))
      <$> list_prod (AppMeshService.envoyFargateServices this)
                    (AppMeshService.envoyFargateServices service) /\
  select as_LoadBalancer d = [].
Proof.
  intros d. subst d. unfold addBackends_decls.
  by_running (AppMeshService.addBackends this service).
  - unfold AppMeshService.addBackends.
    eapply emits_forEach. intros from.
    emits_then ltac:(apply emits_call; reflexivity).
    eapply emits_forEach. intros to.
    apply emits_call; reflexivity.
  - unfold paths. rewrite omap_concat_nil; [apply NoDup_nil_2|].
    intros from. rewrite omap_app. by rewrite omap_concat_nil.
  - unfold paths, backends, grants, select.
    split; [|split; [|split]].
    + rewrite omap_concat_nil; [done|].
      intros from. rewrite omap_app. by rewrite omap_concat_nil.
    + erewrite omap_concat_singleton; [done|].
      intros from. rewrite omap_app. by rewrite omap_concat_nil.
    + induction (AppMeshService.envoyFargateServices this) as [|from l IH]; [done|].
      rewrite fmap_cons, list_prod_cons, fmap_app. cbn [concat].
      rewrite omap_app, IH. f_equal. rewrite omap_app.
      erewrite omap_concat_singleton by done.
      by rewrite <- list_fmap_compose.
    + rewrite omap_concat_nil; [done|].
      intros from. rewrite omap_app. by rewrite omap_concat_nil.
Qed.

(** *** [createExternalLoadBalancer] *)

Lemma createExternalLoadBalancer_spec (this : EnvoyFargateService.t) :
  let self := EnvoyFargateService.node this in
  let name := meta_name (EnvoyFargateService.meta this) in
  let loadBalancer := self ++ ["ApplicationLoadBalancer_" +:+ name] in
  let listener := loadBalancer ++ ["Listener_" +:+ name] in
  let d := createExternalLoadBalancer_decls this in
  emits (EnvoyFargateService.createExternalLoadBalancer this) tt d /\
  paths d =
    [loadBalancer; listener; listener ++ [("TargetGroup_" +:+ name) +:+ "Group"];
     self ++ ["ApiEndpoint_" +:+ name]] /\
  select as_LoadBalancer d =
    [(loadBalancer, {|
        internetFacing := true;
        lb_vpc := cluster_vpc (cluster (EnvoyFargateService.environment this));
      |})] /\
  select as_Listener d =
    [(listener, {| lis_port := 80; lis_protocol := HTTP |})] /\
  select as_TargetGroup d =
    [(listener ++ [("TargetGroup_" +:+ name) +:+ "Group"], {|
        tg_port := meta_port (EnvoyFargateService.meta this);
        tg_protocol := HTTP;
        tg_targets := [EnvoyFargateService.fargateService this];
        tg_healthCheck_path := "/health";
      |})] /\
  backends d = [] /\
  grants d = [].
Proof.
  intros self name loadBalancer listener d. subst self name loadBalancer listener d.
  unfold createExternalLoadBalancer_decls.
  by_running (EnvoyFargateService.createExternalLoadBalancer this).
  - unfold EnvoyFargateService.createExternalLoadBalancer.
    repeat (emits_then emits_step). apply emits_ret.
  - paths_NoDup.
  - by repeat split.
Qed.

(** *** The stack *)

Lemma emits_deterministic {A} (m : Synth A) a d : emits m a d -> deterministic m.
Proof.
  intros Hm t1 t2 r1 r2 t1' t2' H1 H2.
  destruct (emits_success _ _ _ _ _ _ Hm H1) as [-> ->].
  destruct (emits_success _ _ _ _ _ _ Hm H2) as [-> ->].
  eauto.
Qed.

Lemma Stack_emits (scope : Path) (id : string) :
  exists a d, emits (AwsAppmeshWeightedRoutingStack.constructor scope id) a d.
Proof.
  do 2 eexists. unfold AwsAppmeshWeightedRoutingStack.constructor.
  do 6 emits_then ltac:(apply emits_new). cbv zeta.
  emits_then ltac:(apply AppMeshService_emits).
  emits_then ltac:(apply AppMeshService_emits).
  emits_then ltac:(apply addBackends_spec).
  emits_then ltac:(apply emits_lift).
  emits_then ltac:(apply createExternalLoadBalancer_spec).
  apply emits_ret.
Qed.

Lemma main_runs :
  exists stack,
    main = inr (stack, main_tree) /\
    AwsAppmeshWeightedRoutingStack.serviceA stack = serviceA_object /\
    AwsAppmeshWeightedRoutingStack.serviceB stack = serviceB_object /\
    main_tree =
      take 6 main_tree
      ++ AppMeshService_decls stack_node "AppMeshServiceA" serviceA_props
      ++ AppMeshService_decls stack_node "AppMeshServiceB" serviceB_props
      ++ addBackends_decls serviceA_object serviceB_object
      ++ createExternalLoadBalancer_decls front_unit.
Proof. eexists. vm_compute. repeat split. Qed.

(** ** The weighted route of a group *)

Lemma zip_with_fmap_l {A B C} (f : B -> A -> C) (g : A -> B) (l : list A) :
  zip_with f (g <$> l) l = (fun x => f (g x) x) <$> l.
Proof. induction l as [|x l IH]; [done|]. rewrite !fmap_cons. simpl. by rewrite IH. Qed.

(** C1: a group that has been created registers exactly one route on its
    router; the route's weighted targets are the mesh nodes of the units
    created for the routes, each with the weight of its route, in the order
    of the routes ([n] targets for [n] routes). *)
Theorem route_weighted_targets (scope : Path) (id : string)
    (props : AppMeshServiceProps) (t : Tree) (svc : AppMeshService.t) (t' : Tree) :
  AppMeshService.constructor scope id props t = inr (svc, t') ->
  exists delta targets,
    t' = t ++ delta /\
    fst <$> select as_VirtualRouter delta = [router_of scope id props] /\
    select as_Route delta =
      [(router_of scope id props ++ ["VirtualRoute"], {|
          routeName := "Route_" +:+ props_name props;
          routeSpec := RouteSpec_http targets;
        |})] /\
    length targets = length (props_routes props) /\
    targets =
      zip_with (fun (u : EnvoyFargateService.t) r => {|
          wt_virtualNode := EnvoyFargateService.virtualNode u;
          weight := route_weight r;
        |}) (AppMeshService.envoyFargateServices svc) (props_routes props) /\
    (fun u : EnvoyFargateService.t => meta_name (EnvoyFargateService.meta u))
      <$> AppMeshService.envoyFargateServices svc = route_name <$> props_routes props /\
    weight <$> targets = route_weight <$> props_routes props /\
    wt_virtualNode <$> targets = fst <$> select as_VirtualNode delta.
Proof.
  intros (-> & -> & _)%AppMeshService_success.
  destruct (AppMeshService_view scope id props) as (Hvr & Hr & _).
  destruct (AppMeshService_units scope id props) as (_ & _ & _ & _ & Hvn & _).
  exists (AppMeshService_decls scope id props), (paired_targets (scope ++ [id]) props).
  split; [done|]. split; [by rewrite Hvr|]. split; [done|].
  rewrite Hvn. unfold paired_targets.
  change (AppMeshService.envoyFargateServices (AppMeshService_object scope id props))
    with (unit_of (scope ++ [id]) props <$> props_routes props).
  rewrite zip_with_fmap_l, length_fmap, <- !list_fmap_compose.
  by repeat split.
Qed.

Lemma route_weighted_targets_witness :
  AppMeshService.constructor stack_node "AppMeshServiceB" serviceB_props []
    = inr (serviceB_object, AppMeshService_decls stack_node "AppMeshServiceB" serviceB_props) /\
  exists delta targets,
    select as_Route delta =
      [(stack_node ++ ["AppMeshServiceB"; "VirtualRouter_serviceB"; "VirtualRoute"],
        {| routeName := "Route_serviceB"; routeSpec := RouteSpec_http targets |})] /\
    weight <$> targets = [4; 1].
Proof.
  assert (H : AppMeshService.constructor stack_node "AppMeshServiceB" serviceB_props []
    = inr (serviceB_object, AppMeshService_decls stack_node "AppMeshServiceB" serviceB_props))
    by (vm_compute; reflexivity).
  split; [exact H|].
  destruct (route_weighted_targets _ _ _ _ _ _ H)
    as (delta & targets & _ & _ & Hr & _ & _ & _ & Hw & _).
  exists delta, targets. split; [exact Hr|exact Hw].
Defined.

(** ** Backends *)

(** C2: [A.addBackends(B)] always succeeds, creates no construct, declares
    B's virtual service as a backend of the mesh node of each unit of A
    ([N] declarations), and allows traffic from each unit of A to each
    unit of B on the port of the unit of B ([N * M] grants, in call order). *)
Theorem addBackends_grants (A B : AppMeshService.t) (t : Tree) :
  exists delta,
    AppMeshService.addBackends A B t = inr (tt, t ++ delta) /\
    paths delta = [] /\
    backends delta =
      (fun from : EnvoyFargateService.t =>
         (EnvoyFargateService.virtualNode from, AppMeshService.virtualService B))
        <$> AppMeshService.envoyFargateServices A /\
    grants delta =
      (fun ft : EnvoyFargateService.t * EnvoyFargateService.t =>
         (EnvoyFargateService.fargateService ft.1,
          EnvoyFargateService.fargateService ft.2,
          Port_tcp (meta_port (EnvoyFargateService.meta ft.2))))
        <$> list_prod (AppMeshService.envoyFargateServices A)
                      (AppMeshService.envoyFargateServices B) /\
    length (backends delta) = length (AppMeshService.envoyFargateServices A) /\
    length (grants delta) =
      (length (AppMeshService.envoyFargateServices A)
       * length (AppMeshService.envoyFargateServices B))%nat.
Proof.
  destruct (addBackends_spec A B) as (Hem & Hp & Hb & Hg & _).
  exists (addBackends_decls A B). split.
  - rewrite Hem.
    destruct (proj2 (commit_succeeds (addBackends_decls A B) t)) as [t' Ht'].
    { rewrite Hp. split; [apply NoDup_nil_2|]. intros p Hin. by apply elem_of_nil in Hin. }
    rewrite Ht'. by apply commit_inr in Ht' as ->.
  - split; [done|]. split; [done|]. split; [done|].
    rewrite Hb, Hg, !length_fmap. split; [done|]. apply length_prod.
Qed.

(** The deployed topology: one unit calling two. *)
Example addBackends_serviceA_serviceB :
  length (backends main_tree) = 1%nat /\ length (grants main_tree) = 2%nat.
Proof. by vm_compute. Qed.

(** ** Refused constructions *)

(** C3, as the code has it: a group whose routes repeat a name is never
    built.  Whatever the scope, the id, the other properties and the tree
    built so far, the constructor throws, and so does whatever program
    continues with the group: no tree is left for synthesis.  The units are
    constructs below the group's node whose ids are derived from the route
    names, and a second unit of one name cannot be registered there. *)
Theorem construction_refused_for_shared_names (scope : Path) (id : string)
    (props : AppMeshServiceProps) (t : Tree)
    (B : Type) (rest : AppMeshService.t -> Synth B) :
  ~ NoDup (route_name <$> props_routes props) ->
  rejected (AppMeshService.constructor scope id props t) /\
  rejected ((let* svc := AppMeshService.constructor scope id props in rest svc) t).
Proof.
  intros Hdup.
  destruct (AppMeshService_fails scope id props t Hdup) as [e He].
  split; [by exists e|]. exists e. unfold bind. by rewrite He.
Qed.

Lemma construction_refused_for_shared_names_witness :
  ~ NoDup ["serviceB_v1"; "serviceB_v1"] /\
  rejected (AppMeshService.constructor stack_node "AppMeshServiceB" {|
      props_name := "serviceB";
      props_port := 3000;
      props_routes := [
        {| route_name := "serviceB_v1"; route_weight := 4 |};
        {| route_name := "serviceB_v1"; route_weight := 1 |}
      ];
      props_environment := stack_environment;
    |} []).
Proof.
  assert (H : ~ NoDup ["serviceB_v1"; "serviceB_v1"]).
  { intros [Hn _]%NoDup_cons. apply Hn. left. }
  split; [exact H|].
  exact (proj1 (construction_refused_for_shared_names stack_node "AppMeshServiceB" {|
      props_name := "serviceB";
      props_port := 3000;
      props_routes := [
        {| route_name := "serviceB_v1"; route_weight := 4 |};
        {| route_name := "serviceB_v1"; route_weight := 1 |}
      ];
      props_environment := stack_environment;
    |} [] unit (fun _ => ret tt) H)).
Defined.

(** C3, as stated, fails: a group without routes, a group on port 70000,
    and a second group reusing a unit name of the first are all accepted. *)
Lemma contract_violations_accepted :
  ~ rejected (AppMeshService.constructor stack_node "AppMeshServiceB" {|
        props_name := "serviceB";
        props_port := 3000;
        props_routes := [];
        props_environment := stack_environment;
      |} []) /\
  ~ rejected (AppMeshService.constructor stack_node "AppMeshServiceB" {|
        props_name := "serviceB";
        props_port := 70000;
        props_routes := [{| route_name := "serviceB_v1"; route_weight := 1 |}];
        props_environment := stack_environment;
      |} []) /\
  ~ rejected (AppMeshService.constructor stack_node "AppMeshServiceB" {|
        props_name := "serviceB";
        props_port := 3000;
        props_routes := [{| route_name := "serviceA"; route_weight := 1 |}];
        props_environment := stack_environment;
      |} (AppMeshService_decls stack_node "AppMeshServiceA" serviceA_props)).
Proof.
  repeat split; intros [e He]; vm_compute in He; discriminate He.
Qed.

(** Two routes with one name: the second unit is refused. *)
Example shared_name_refused :
  AppMeshService.constructor stack_node "AppMeshServiceB" {|
      props_name := "serviceB";
      props_port := 3000;
      props_routes := [
        {| route_name := "serviceB_v1"; route_weight := 4 |};
        {| route_name := "serviceB_v1"; route_weight := 1 |}
      ];
      props_environment := stack_environment;
    |} []
  = inl (ConstructExists
           (stack_node ++ ["AppMeshServiceB"; "EnvoyFargateService_serviceB_v1"])).
Proof. by vm_compute. Qed.

(** ** Determinism *)

(** C4: what a constructor or a call returns and adds is a function of its
    arguments alone, for the stack, for every group, for every
    [addBackends] and for every load balancer; and the tree of the
    deployed stack lists the shared environment, then the groups in
    declaration order, then the backend edges, then the load balancer. *)
Theorem compile_deterministic :
  (forall scope id, deterministic (AwsAppmeshWeightedRoutingStack.constructor scope id)) /\
  (forall scope id props, deterministic (AppMeshService.constructor scope id props)) /\
  (forall scope id props, deterministic (EnvoyFargateService.constructor scope id props)) /\
  (forall A B, deterministic (AppMeshService.addBackends A B)) /\
  (forall unit, deterministic (EnvoyFargateService.createExternalLoadBalancer unit)) /\
  exists stack,
    main = inr (stack, main_tree) /\
    main_tree =
      take 6 main_tree
      ++ AppMeshService_decls stack_node "AppMeshServiceA" serviceA_props
      ++ AppMeshService_decls stack_node "AppMeshServiceB" serviceB_props
      ++ addBackends_decls serviceA_object serviceB_object
      ++ createExternalLoadBalancer_decls front_unit.
Proof.
  split; [|split; [|split; [|split; [|split]]]].
  - intros scope id. destruct (Stack_emits scope id) as (a & d & H).
    exact (emits_deterministic _ _ _ H).
  - intros scope id props.
    exact (emits_deterministic _ _ _ (AppMeshService_emits scope id props)).
  - intros scope id props.
    destruct (EnvoyFargateService_spec scope id props) as [H _].
    exact (emits_deterministic _ _ _ H).
  - intros A B. destruct (addBackends_spec A B) as [H _].
    exact (emits_deterministic _ _ _ H).
  - intros unit. destruct (createExternalLoadBalancer_spec unit) as [H _].
    exact (emits_deterministic _ _ _ H).
  - destruct main_runs as (stack & H1 & _ & _ & H2). exists stack. split; [exact H1|exact H2].
Qed.

(** ** The published identity *)

(** C5: a group that has been created has exactly one router and exactly
    one virtual service; the service is named by the lowercase of
    [<group>.<zone>] and provided by that router, whatever the routes. *)
Theorem published_identity (scope : Path) (id : string)
    (props : AppMeshServiceProps) (t : Tree) (svc : AppMeshService.t) (t' : Tree) :
  AppMeshService.constructor scope id props t = inr (svc, t') ->
  exists delta router,
    t' = t ++ delta /\
    fst <$> select as_VirtualRouter delta = [router] /\
    select as_VirtualService delta =
      [(AppMeshService.virtualService svc, {|
          virtualServiceName :=
            toLowerCase (props_name props +:+ "." +:+
                         zoneName (hostedZone (props_environment props)));
          virtualServiceProvider := VirtualServiceProvider_virtualRouter router;
        |})].
Proof.
  intros (-> & -> & _)%AppMeshService_success.
  destruct (AppMeshService_view scope id props) as (Hvr & _ & Hvs & _).
  exists (AppMeshService_decls scope id props), (router_of scope id props).
  split; [done|]. split; [by rewrite Hvr|]. exact Hvs.
Qed.

Lemma published_identity_witness :
  AppMeshService.constructor stack_node "AppMeshServiceB" serviceB_props []
    = inr (serviceB_object, AppMeshService_decls stack_node "AppMeshServiceB" serviceB_props) /\
  exists delta router,
    (fun x => virtualServiceName x.2) <$> select as_VirtualService delta
      = ["serviceb.appmesh.local"] /\
    (fun x => virtualServiceProvider x.2) <$> select as_VirtualService delta
      = [VirtualServiceProvider_virtualRouter router].
Proof.
  assert (H : AppMeshService.constructor stack_node "AppMeshServiceB" serviceB_props []
    = inr (serviceB_object, AppMeshService_decls stack_node "AppMeshServiceB" serviceB_props))
    by (vm_compute; reflexivity).
  split; [exact H|].
  destruct (published_identity _ _ _ _ _ _ H) as (delta & router & _ & _ & Hvs).
  exists delta, router. rewrite Hvs. split; reflexivity.
Defined.

(** ** The units of a group *)

(** C7: in a group that has been created, each unit has one Fargate service
    and one mesh node; the name of the unit is the name the service is
    registered under in the shared Cloud Map namespace and the name of the
    mesh node, and the node is discovered through that service. *)
Theorem unit_name_shared (scope : Path) (id : string)
    (props : AppMeshServiceProps) (t : Tree) (svc : AppMeshService.t) (t' : Tree) :
  AppMeshService.constructor scope id props t = inr (svc, t') ->
  let units := AppMeshService.envoyFargateServices svc in
  let names :=
    (fun u : EnvoyFargateService.t => meta_name (EnvoyFargateService.meta u)) <$> units in
  exists delta,
    t' = t ++ delta /\
    names = route_name <$> props_routes props /\
    fst <$> select as_FargateService delta = EnvoyFargateService.fargateService <$> units /\
    fst <$> select as_VirtualNode delta = EnvoyFargateService.virtualNode <$> units /\
    (fun x => cloudMap_name (cloudMapOptions x.2)) <$> select as_FargateService delta
      = names /\
    (fun x => virtualNodeName x.2) <$> select as_VirtualNode delta = names /\
    (fun x => cloudMapNamespace (cloudMapOptions x.2)) <$> select as_FargateService delta
      = (fun _ => namespace (props_environment props)) <$> units /\
    (fun x => serviceDiscovery x.2) <$> select as_VirtualNode delta
      = (fun x => ServiceDiscovery_cloudMap x.1) <$> select as_FargateService delta.
Proof.
  intros (-> & -> & _)%AppMeshService_success. cbv zeta.
  destruct (AppMeshService_units scope id props)
    as (Hfs & _ & Hcm & Hns & Hvn & Hvnn & Hsd & _).
  exists (AppMeshService_decls scope id props).
  change (AppMeshService.envoyFargateServices (AppMeshService_object scope id props))
    with (unit_of (scope ++ [id]) props <$> props_routes props).
  rewrite Hcm, Hvnn, Hns, Hsd, Hvn.
  assert (Hlink :
    (fun x : Path * FargateServiceProps => ServiceDiscovery_cloudMap x.1)
      <$> select as_FargateService (AppMeshService_decls scope id props)
    = ServiceDiscovery_cloudMap
      <$> (fst <$> select as_FargateService (AppMeshService_decls scope id props)))
    by (by rewrite <- list_fmap_compose).
  rewrite Hlink, Hfs, <- !list_fmap_compose. by repeat split.
Qed.

Lemma unit_name_shared_witness :
  AppMeshService.constructor stack_node "AppMeshServiceB" serviceB_props []
    = inr (serviceB_object, AppMeshService_decls stack_node "AppMeshServiceB" serviceB_props) /\
  exists delta,
    (fun x => cloudMap_name (cloudMapOptions x.2)) <$> select as_FargateService delta
      = ["serviceB_v1"; "serviceB_v2"] /\
    (fun x => virtualNodeName x.2) <$> select as_VirtualNode delta
      = ["serviceB_v1"; "serviceB_v2"].
Proof.
  assert (H : AppMeshService.constructor stack_node "AppMeshServiceB" serviceB_props []
    = inr (serviceB_object, AppMeshService_decls stack_node "AppMeshServiceB" serviceB_props))
    by (vm_compute; reflexivity).
  split; [exact H|].
  destruct (unit_name_shared _ _ _ _ _ _ H) as (delta & _ & _ & _ & _ & Hcm & Hvn & _).
  exists delta. rewrite Hcm, Hvn. split; reflexivity.
Defined.

(** C10: in a group that has been created, there is one Fargate service for
    each route, and each has a desired count of 1, whatever the weights. *)
Theorem desired_count_one (scope : Path) (id : string)
    (props : AppMeshServiceProps) (t : Tree) (svc : AppMeshService.t) (t' : Tree) :
  AppMeshService.constructor scope id props t = inr (svc, t') ->
  exists delta,
    t' = t ++ delta /\
    (fun x => desiredCount x.2) <$> select as_FargateService delta
      = replicate (length (props_routes props)) 1.
Proof.
  intros (-> & -> & _)%AppMeshService_success.
  destruct (AppMeshService_units scope id props) as (_ & Hdc & _).
  exists (AppMeshService_decls scope id props). split; [done|].
  rewrite Hdc. clear. induction (props_routes props) as [|r l IH]; [done|].
  rewrite fmap_cons. simpl. by rewrite IH.
Qed.

Lemma desired_count_one_witness :
  AppMeshService.constructor stack_node "AppMeshServiceB" serviceB_props []
    = inr (serviceB_object, AppMeshService_decls stack_node "AppMeshServiceB" serviceB_props) /\
  exists delta,
    (fun x => desiredCount x.2) <$> select as_FargateService delta = [1; 1].
Proof.
  assert (H : AppMeshService.constructor stack_node "AppMeshServiceB" serviceB_props []
    = inr (serviceB_object, AppMeshService_decls stack_node "AppMeshServiceB" serviceB_props))
    by (vm_compute; reflexivity).
  split; [exact H|].
  destruct (desired_count_one _ _ _ _ _ _ H) as (delta & _ & Hdc).
  exists delta. exact Hdc.
Defined.

(** ** The address record *)

(** C8: a group that has been created has exactly one address record; it
    carries the name of the group's virtual service and points at
    10.10.10.10, whatever the group. *)
Theorem placeholder_record (scope : Path) (id : string)
    (props : AppMeshServiceProps) (t : Tree) (svc : AppMeshService.t) (t' : Tree) :
  AppMeshService.constructor scope id props t = inr (svc, t') ->
  exists delta record,
    t' = t ++ delta /\
    select as_ARecord delta = [record] /\
    zone record.2 = hostedZone (props_environment props) /\
    recordName record.2 =
      toLowerCase (props_name props +:+ "." +:+
                   zoneName (hostedZone (props_environment props))) /\
    (fun x => virtualServiceName x.2) <$> select as_VirtualService delta
      = [recordName record.2] /\
    target record.2 = RecordTarget_fromIpAddresses ["10.10.10.10"].
Proof.
  intros (-> & -> & _)%AppMeshService_success.
  destruct (AppMeshService_view scope id props) as (_ & _ & Hvs & Har & _).
  eexists (AppMeshService_decls scope id props), _.
  split; [done|]. split; [exact Har|]. rewrite Hvs. by repeat split.
Qed.

Lemma placeholder_record_witness :
  AppMeshService.constructor stack_node "AppMeshServiceB" serviceB_props []
    = inr (serviceB_object, AppMeshService_decls stack_node "AppMeshServiceB" serviceB_props) /\
  exists delta record,
    select as_ARecord delta = [record] /\
    recordName record.2 = "serviceb.appmesh.local" /\
    target record.2 = RecordTarget_fromIpAddresses ["10.10.10.10"].
Proof.
  assert (H : AppMeshService.constructor stack_node "AppMeshServiceB" serviceB_props []
    = inr (serviceB_object, AppMeshService_decls stack_node "AppMeshServiceB" serviceB_props))
    by (vm_compute; reflexivity).
  split; [exact H|].
  destruct (placeholder_record _ _ _ _ _ _ H) as (delta & record & _ & Har & _ & Hn & _ & Ht).
  exists delta, record. rewrite Hn. by repeat split.
Defined.

(** ** The load balancer *)

Lemma commit_first_taken (d : list Decl) (t : Tree) (p : Path) (ps : list Path) :
  paths d = p :: ps -> p ∈ paths t -> commit d t = inl (ConstructExists p).
Proof.
  revert t. induction d as [|x d IH]; intros t Hd Hp; [done|].
  rewrite paths_cons in Hd. simpl. destruct (new_path x) as [q|] eqn:Hx.
  - injection Hd as -> _. by rewrite decide_True.
  - apply IH; [done|]. rewrite paths_app. apply elem_of_app. by left.
Qed.

(** C9, as the code has it: a call that succeeds on a unit adds exactly one
    internet-facing load balancer, one listener below it on port 80, and
    one target group below the listener that forwards to the port of the
    unit's Fargate service and checks the health path of the unit's mesh
    node; a second call on the same unit adds nothing and is refused, as
    the id of the load balancer is taken. *)
Theorem front_door (scope : Path) (id : string) (props : EnvoyFargateServiceProps)
    (t0 : Tree) (unit : EnvoyFargateService.t) (t1 t : Tree) (u : ()) (t' : Tree) :
  EnvoyFargateService.constructor scope id props t0 = inr (unit, t1) ->
  EnvoyFargateService.createExternalLoadBalancer unit t = inr (u, t') ->
  exists delta lb listener group,
    t' = t ++ delta /\
    select as_LoadBalancer delta = [lb] /\
    internetFacing lb.2 = true /\
    select as_Listener delta = [listener] /\
    lb.1 `prefix_of` listener.1 /\
    lis_port listener.2 = 80 /\
    select as_TargetGroup delta = [group] /\
    listener.1 `prefix_of` group.1 /\
    tg_port group.2 = meta_port (props_meta props) /\
    tg_targets group.2 = [EnvoyFargateService.fargateService unit] /\
    (fun x => (fun l => path (healthCheck l)) <$> vn_listeners x.2)
      <$> select as_VirtualNode (drop (length t0) t1) = [[tg_healthCheck_path group.2]] /\
    EnvoyFargateService.createExternalLoadBalancer unit t' = inl (ConstructExists lb.1).
Proof.
  intros Hunit Hlb.
  destruct (EnvoyFargateService_spec scope id props)
    as (Hem0 & _ & _ & _ & _ & Hvn & _).
  destruct (emits_success _ _ _ _ _ _ Hem0 Hunit) as [-> ->].
  destruct (createExternalLoadBalancer_spec (EnvoyFargateService_object scope id props))
    as (Hem & Hp & Hl & Hli & Htg & _).
  destruct (emits_success _ _ _ _ _ _ Hem Hlb) as [_ ->].
  eexists _, _, _, _. split; [done|].
  split; [exact Hl|]. split; [done|].
  split; [exact Hli|]. split; [by apply prefix_app_r|]. split; [done|].
  split; [exact Htg|]. split; [by apply prefix_app_r|]. split; [done|]. split; [done|].
  split.
  - rewrite drop_app_length. cbv zeta in Hvn. by rewrite Hvn.
  - rewrite Hem. erewrite commit_first_taken; [done|exact Hp|].
    rewrite paths_app, Hp. apply elem_of_app. right. by left.
Qed.

Lemma front_door_witness :
  EnvoyFargateService.constructor (stack_node ++ ["AppMeshServiceA"])
      "EnvoyFargateService_serviceA"
      (unit_props serviceA_props {| route_name := "serviceA"; route_weight := 1 |}) []
    = inr (front_unit,
           EnvoyFargateService_decls (stack_node ++ ["AppMeshServiceA"])
             "EnvoyFargateService_serviceA"
             (unit_props serviceA_props {| route_name := "serviceA"; route_weight := 1 |})) /\
  EnvoyFargateService.createExternalLoadBalancer front_unit []
    = inr (tt, createExternalLoadBalancer_decls front_unit) /\
  exists lb,
    select as_LoadBalancer (createExternalLoadBalancer_decls front_unit) = [lb] /\
    EnvoyFargateService.createExternalLoadBalancer front_unit
        (createExternalLoadBalancer_decls front_unit)
      = inl (ConstructExists lb.1).
Proof.
  assert (H1 : EnvoyFargateService.constructor (stack_node ++ ["AppMeshServiceA"])
      "EnvoyFargateService_serviceA"
      (unit_props serviceA_props {| route_name := "serviceA"; route_weight := 1 |}) []
    = inr (front_unit,
           EnvoyFargateService_decls (stack_node ++ ["AppMeshServiceA"])
             "EnvoyFargateService_serviceA"
             (unit_props serviceA_props {| route_name := "serviceA"; route_weight := 1 |})))
    by (vm_compute; reflexivity).
  assert (H2 : EnvoyFargateService.createExternalLoadBalancer front_unit []
    = inr (tt, createExternalLoadBalancer_decls front_unit))
    by (vm_compute; reflexivity).
  split; [exact H1|]. split; [exact H2|].
  destruct (front_door _ _ _ _ _ _ _ _ _ H1 H2)
    as (delta & lb & listener & group & Hd & Hl & _ & _ & _ & _ & _ & _ & _ & _ & _ & Hre).
  simpl in Hd. subst delta. exists lb. split; [exact Hl|exact Hre].
Defined.

(** C9, as stated, fails: after the unit of service A has been given its
    load balancer, a second call does not add another one. *)
Lemma attach_twice_refused :
  ~ attach_twice_gives_two front_unit
      (AppMeshService_decls stack_node "AppMeshServiceA" serviceA_props).
Proof.
  intros (t1 & t2 & H1 & H2 & _).
  vm_compute in H1. injection H1 as <-.
  vm_compute in H2. discriminate H2.
Qed.

(** ** The gateway *)

(** C6: whatever the request to service B settles to, the handler of
    [/serviceb] completes without a fault and sends a body with status 200:
    the data of the response under [serviceB] when the request is
    fulfilled, the stringified failure under [error] (after logging the
    failure) when it is rejected. *)
Theorem serviceb_never_faults (Failure : Type) (JSON_stringify : Failure -> string)
    (axios_get : string -> Gateway.Settled Failure) :
  let out := Gateway.get_serviceb Failure JSON_stringify axios_get (Gateway.fresh Failure) in
  out.1 = inr tt /\
  Gateway.statusCode (Gateway.res Failure out.2) = 200 /\
  Gateway.finished (Gateway.res Failure out.2) = true /\
  match axios_get "http://serviceb.appmesh.local:3000/version" with
  | Gateway.fulfilled _ resp =>
      Gateway.body (Gateway.res Failure out.2)
        = Some (JSON_object [("serviceB", Gateway.data resp)]) /\
      Gateway.console Failure out.2 = []
  | Gateway.rejected _ e =>
      Gateway.body (Gateway.res Failure out.2)
        = Some (JSON_object [("error", JSON_string (JSON_stringify e))]) /\
      Gateway.console Failure out.2 = [e]
  end.
Proof.
  unfold Gateway.get_serviceb, Gateway.try_catch, Gateway.hbind, Gateway.await.
  destruct (axios_get _) as [resp|e]; simpl; by repeat split.
Qed.

(** The host the gateway calls is the virtual service of service B. *)
Example gateway_calls_serviceB :
  (fun x => "http://" +:+ virtualServiceName x.2 +:+ ":"
            +:+ number_toString (props_port serviceB_props) +:+ "/version")
    <$> select as_VirtualService
          (AppMeshService_decls stack_node "AppMeshServiceB" serviceB_props)
  = ["http://serviceb.appmesh.local:3000/version"].
Proof. by vm_compute. Qed.

(** * More on the units *)

(** The paths of a unit and the inside of its task. *)
Lemma EnvoyFargateService_details (scope : Path) (id : string)
    (props : EnvoyFargateServiceProps) :
  let self := scope ++ [id] in
  let name := meta_name (props_meta props) in
  let port := meta_port (props_meta props) in
  let task := self ++ ["TaskDefinition_" +:+ name] in
  let d := EnvoyFargateService_decls scope id props in
  emits (EnvoyFargateService.constructor scope id props)
    (EnvoyFargateService_object scope id props) d /\
  paths d =
    [self;
     self ++ ["TaskRole_" +:+ name];
     self ++ ["TaskExecutionRole_" +:+ name];
     task;
     task ++ ["AppContainer_" +:+ name];
     task ++ ["EnvoyContainer_" +:+ name];
     task ++ ["XRayContainer_" +:+ name];
     self ++ ["FargateService_" +:+ name];
     self ++ ["VirtualNode_" +:+ name]] /\
  fst <$> select as_Role d =
    [self ++ ["TaskRole_" +:+ name]; self ++ ["TaskExecutionRole_" +:+ name]] /\
  select as_TaskDefinition d =
    [(task, {|
        taskRole := self ++ ["TaskRole_" +:+ name];
        executionRole := self ++ ["TaskExecutionRole_" +:+ name];
        proxyConfiguration := {|
          proxy_containerName := "envoy";
          appPorts := [port];
          proxyEgressPort := 15001;
          proxyIngressPort := 15000;
          ignoredUID := 1337;
          egressIgnoredIPs := ["169.254.170.2"; "169.254.169.254"];
        |};
      |})] /\
  fst <$> select as_Container d =
    [task ++ ["AppContainer_" +:+ name];
     task ++ ["EnvoyContainer_" +:+ name];
     task ++ ["XRayContainer_" +:+ name]] /\
  (fun x => (x.1, containerName x.2, image x.2, user x.2, essential x.2,
             container_environment x.2))
    <$> select as_Container d =
    [(task ++ ["AppContainer_" +:+ name], None,
      ContainerImage_fromAsset [dirname; ".."; "containers"; name], None, true, []);
     (task ++ ["EnvoyContainer_" +:+ name], Some "envoy",
      ContainerImage_fromRegistry ENVOY_CONTAINER, Some "1337", true,
      [("APPMESH_VIRTUAL_NODE_NAME",
        "mesh/" +:+ meshName (mesh (props_env props)) +:+ "/virtualNode/" +:+ name);
       ("AWS_REGION", Stack_region)]);
     (task ++ ["XRayContainer_" +:+ name], Some "xray",
      ContainerImage_fromRegistry XRAY_CONTAINER, None, true, [])] /\
  portMappings d =
    [(task ++ ["AppContainer_" +:+ name],
      {| containerPort := port; hostPort := port; pm_protocol := TCP |});
     (task ++ ["XRayContainer_" +:+ name],
      {| containerPort := 2000; hostPort := 2000; pm_protocol := UDP |})].
Proof.
  intros self name port task d. subst self name port task d.
  unfold EnvoyFargateService_decls.
  by_running (EnvoyFargateService.constructor scope id props).
  - unfold_unit. repeat (emits_then emits_step). apply emits_ret.
  - paths_NoDup.
  - by repeat split.
Qed.

(** X1: a unit keeps to itself.  When the constructor of a unit succeeds
    it has added nine constructs with pairwise different paths, all below
    the unit's own node: the unit, two roles, the task definition with its
    three containers, the Fargate service and the mesh node.  What was in
    the tree before stays in place, and the constructor creates no router,
    route, virtual service, address record or load balancer, declares no
    backend and allows no traffic. *)
Theorem unit_self_contained (scope : Path) (id : string)
    (props : EnvoyFargateServiceProps) (t : Tree)
    (unit : EnvoyFargateService.t) (t' : Tree) :
  EnvoyFargateService.constructor scope id props t = inr (unit, t') ->
  exists delta,
    t' = t ++ delta /\
    Forall (fun p => EnvoyFargateService.node unit `prefix_of` p) (paths delta) /\
    length (paths delta) = 9%nat /\
    NoDup (paths delta) /\
    length (select as_Role delta) = 2%nat /\
    length (select as_TaskDefinition delta) = 1%nat /\
    length (select as_Container delta) = 3%nat /\
    length (select as_FargateService delta) = 1%nat /\
    length (select as_VirtualNode delta) = 1%nat /\
    select as_VirtualRouter delta = [] /\
    select as_Route delta = [] /\
    select as_VirtualService delta = [] /\
    select as_ARecord delta = [] /\
    select as_LoadBalancer delta = [] /\
    backends delta = [] /\
    grants delta = [].
Proof.
  intros Hrun.
  destruct (EnvoyFargateService_spec scope id props)
    as (Hem & Hnd & Hpre & _ & Hfs & Hvn & Hvr & Hr & Hvs & Har & Hlb & Hb & Hg).
  destruct (EnvoyFargateService_details scope id props)
    as (_ & Hp & Hroles & Htask & Hcont & _).
  destruct (emits_success _ _ _ _ _ _ Hem Hrun) as [-> ->].
  cbv zeta in *.
  apply (f_equal length) in Hroles. rewrite length_fmap in Hroles.
  apply (f_equal length) in Hcont. rewrite length_fmap in Hcont.
  exists (EnvoyFargateService_decls scope id props).
  split; [done|]. split; [exact Hpre|]. split; [by rewrite Hp|]. split; [exact Hnd|].
  split; [exact Hroles|]. split; [by rewrite Htask|].
  split; [exact Hcont|]. split; [by rewrite Hfs|].
  split; [by rewrite Hvn|]. done.
Qed.

Lemma unit_self_contained_witness :
  EnvoyFargateService.constructor (stack_node ++ ["AppMeshServiceA"])
      "EnvoyFargateService_serviceA"
      (unit_props serviceA_props {| route_name := "serviceA"; route_weight := 1 |}) []
    = inr (front_unit,
           EnvoyFargateService_decls (stack_node ++ ["AppMeshServiceA"])
             "EnvoyFargateService_serviceA"
             (unit_props serviceA_props {| route_name := "serviceA"; route_weight := 1 |})) /\
  length (paths (EnvoyFargateService_decls (stack_node ++ ["AppMeshServiceA"])
                   "EnvoyFargateService_serviceA"
                   (unit_props serviceA_props
                      {| route_name := "serviceA"; route_weight := 1 |}))) = 9%nat.
Proof.
  assert (H : EnvoyFargateService.constructor (stack_node ++ ["AppMeshServiceA"])
      "EnvoyFargateService_serviceA"
      (unit_props serviceA_props {| route_name := "serviceA"; route_weight := 1 |}) []
    = inr (front_unit,
           EnvoyFargateService_decls (stack_node ++ ["AppMeshServiceA"])
             "EnvoyFargateService_serviceA"
             (unit_props serviceA_props {| route_name := "serviceA"; route_weight := 1 |})))
    by (vm_compute; reflexivity).
  split; [exact H|].
  destruct (unit_self_contained _ _ _ _ _ _ H) as (delta & Hd & _ & Hlen & _).
  change (EnvoyFargateService_decls (stack_node ++ ["AppMeshServiceA"])
            "EnvoyFargateService_serviceA"
            (unit_props serviceA_props {| route_name := "serviceA"; route_weight := 1 |})
          = delta) in Hd.
  rewrite Hd. exact Hlen.
Defined.

(** X2: the envoy sidecar of a unit is wired to the unit.  The proxy
    configuration of the task names exactly one container of the task, the
    envoy one; that container runs as the user whose id the proxy ignores,
    and its [APPMESH_VIRTUAL_NODE_NAME] is the mesh and the name of the
    mesh node the same constructor creates. *)
Theorem envoy_sidecar_wired (scope : Path) (id : string)
    (props : EnvoyFargateServiceProps) (t : Tree) (unit : EnvoyFargateService.t)
    (t' : Tree) :
  EnvoyFargateService.constructor scope id props t = inr (unit, t') ->
  exists delta task envoy node,
    t' = t ++ delta /\
    select as_TaskDefinition delta = [task] /\
    select as_VirtualNode delta = [node] /\
    filter (fun c => containerName c.2 = Some (proxy_containerName (proxyConfiguration task.2)))
      (select as_Container delta) = [envoy] /\
    (exists cid, envoy.1 = task.1 ++ [cid]) /\
    user envoy.2 = Some (number_toString (ignoredUID (proxyConfiguration task.2))) /\
    container_environment envoy.2 !! 0%nat =
      Some ("APPMESH_VIRTUAL_NODE_NAME",
            "mesh/" +:+ meshName (vn_mesh node.2) +:+ "/virtualNode/"
              +:+ virtualNodeName node.2) /\
    node.1 = EnvoyFargateService.virtualNode unit.
Proof.
  intros Hrun.
  destruct (EnvoyFargateService_spec scope id props) as (Hem & _ & _ & _ & _ & Hvn & _).
  destruct (EnvoyFargateService_details scope id props) as (_ & _ & _ & Htd & _ & Hc & _).
  destruct (emits_success _ _ _ _ _ _ Hem Hrun) as [-> ->].
  cbv zeta in Hvn, Htd, Hc.
  set (d := EnvoyFargateService_decls scope id props) in *.
  destruct (select as_Container d) as [|[p1 c1] [|[p2 c2] [|[p3 c3] [|]]]] eqn:Hsel;
    try discriminate Hc.
  simpl in Hc. simplify_eq.
  eexists d, _, (_, c2), _. split; [done|]. split; [exact Htd|]. split; [exact Hvn|].
  rewrite Hsel. simpl. split.
  - rewrite !filter_cons. simpl.
    repeat match goal with H : containerName _ = _ |- _ => rewrite H end.
    repeat case_decide; by simplify_eq.
  - split; [by eexists|]. split; [|split; [|done]].
    + match goal with H : user c2 = _ |- _ => rewrite H end. by vm_compute.
    + by match goal with H : container_environment c2 = _ |- _ => rewrite H end.
Qed.

Lemma envoy_sidecar_wired_witness :
  EnvoyFargateService.constructor (stack_node ++ ["AppMeshServiceA"])
      "EnvoyFargateService_serviceA"
      (unit_props serviceA_props {| route_name := "serviceA"; route_weight := 1 |}) []
    = inr (front_unit,
           EnvoyFargateService_decls (stack_node ++ ["AppMeshServiceA"])
             "EnvoyFargateService_serviceA"
             (unit_props serviceA_props {| route_name := "serviceA"; route_weight := 1 |})) /\
  exists delta task envoy,
    select as_TaskDefinition delta = [task] /\
    filter (fun c => containerName c.2 = Some (proxy_containerName (proxyConfiguration task.2)))
      (select as_Container delta) = [envoy].
Proof.
  assert (H : EnvoyFargateService.constructor (stack_node ++ ["AppMeshServiceA"])
      "EnvoyFargateService_serviceA"
      (unit_props serviceA_props {| route_name := "serviceA"; route_weight := 1 |}) []
    = inr (front_unit,
           EnvoyFargateService_decls (stack_node ++ ["AppMeshServiceA"])
             "EnvoyFargateService_serviceA"
             (unit_props serviceA_props {| route_name := "serviceA"; route_weight := 1 |})))
    by (vm_compute; reflexivity).
  split; [exact H|].
  destruct (envoy_sidecar_wired _ _ _ _ _ _ H)
    as (delta & task & envoy & node & _ & Htd & _ & Hf & _).
  exists delta, task, envoy. split; [exact Htd|exact Hf].
Defined.

(** X3: the Fargate service of a unit runs the task the same constructor
    defines, with the two roles the constructor creates, and registers in
    Cloud Map the one container of that task that maps the unit's port. *)
Theorem fargate_service_wired (scope : Path) (id : string)
    (props : EnvoyFargateServiceProps) (t : Tree) (unit : EnvoyFargateService.t)
    (t' : Tree) :
  EnvoyFargateService.constructor scope id props t = inr (unit, t') ->
  exists delta task service,
    t' = t ++ delta /\
    select as_TaskDefinition delta = [task] /\
    select as_FargateService delta = [service] /\
    service.1 = EnvoyFargateService.fargateService unit /\
    fs_taskDefinition service.2 = task.1 /\
    fst <$> select as_Role delta = [taskRole task.2; executionRole task.2] /\
    taskRole task.2 <> executionRole task.2 /\
    filter (fun m => pm_protocol m.2 = TCP) (portMappings delta) =
      [(cloudMap_container (cloudMapOptions service.2), {|
          containerPort := meta_port (props_meta props);
          hostPort := meta_port (props_meta props);
          pm_protocol := TCP;
        |})] /\
    cloudMap_container (cloudMapOptions service.2)
      ∈ fst <$> select as_Container delta.
Proof.
  intros Hrun.
  destruct (EnvoyFargateService_spec scope id props) as (Hem & _ & _ & _ & Hfs & _).
  destruct (EnvoyFargateService_details scope id props)
    as (_ & _ & Hr & Htd & Hc & _ & Hpm).
  destruct (emits_success _ _ _ _ _ _ Hem Hrun) as [-> ->].
  cbv zeta in Hfs, Hr, Htd, Hc, Hpm.
  eexists _, _, _. split; [done|]. split; [exact Htd|]. split; [exact Hfs|].
  split; [done|]. split; [done|]. split; [exact Hr|]. split; [simpl; path_neq|].
  rewrite Hpm. split.
  - rewrite !filter_cons. simpl. repeat case_decide; by simplify_eq.
  - eapply (eq_ind_r (fun l => _ ∈ l)); [|exact Hc]. by left.
Qed.

Lemma fargate_service_wired_witness :
  EnvoyFargateService.constructor (stack_node ++ ["AppMeshServiceA"])
      "EnvoyFargateService_serviceA"
      (unit_props serviceA_props {| route_name := "serviceA"; route_weight := 1 |}) []
    = inr (front_unit,
           EnvoyFargateService_decls (stack_node ++ ["AppMeshServiceA"])
             "EnvoyFargateService_serviceA"
             (unit_props serviceA_props {| route_name := "serviceA"; route_weight := 1 |})) /\
  exists delta task service,
    select as_TaskDefinition delta = [task] /\
    select as_FargateService delta = [service] /\
    fs_taskDefinition service.2 = task.1.
Proof.
  assert (H : EnvoyFargateService.constructor (stack_node ++ ["AppMeshServiceA"])
      "EnvoyFargateService_serviceA"
      (unit_props serviceA_props {| route_name := "serviceA"; route_weight := 1 |}) []
    = inr (front_unit,
           EnvoyFargateService_decls (stack_node ++ ["AppMeshServiceA"])
             "EnvoyFargateService_serviceA"
             (unit_props serviceA_props {| route_name := "serviceA"; route_weight := 1 |})))
    by (vm_compute; reflexivity).
  split; [exact H|].
  destruct (fargate_service_wired _ _ _ _ _ _ H)
    as (delta & task & service & _ & Htd & Hfs & _ & Hlink & _).
  exists delta, task, service. split; [exact Htd|]. split; [exact Hfs|exact Hlink].
Defined.

(** * More on the groups *)

Lemma Forall_omap_concat {A B C} (P : C -> Prop) (f : B -> option C)
    (h : A -> list B) (l : list A) :
  (forall x, Forall P (omap f (h x))) -> Forall P (omap f (concat (h <$> l))).
Proof.
  intros Hh. induction l as [|x l IH]; [by apply Forall_nil_2|].
  rewrite fmap_cons. cbn [concat]. rewrite omap_app. apply Forall_app. by split.
Qed.

Lemma length_omap_concat {A B C} (f : B -> option C) (h : A -> list B)
    (l : list A) (k : nat) :
  (forall x, length (omap f (h x)) = k) ->
  length (omap f (concat (h <$> l))) = (k * length l)%nat.
Proof.
  intros Hh. induction l as [|x l IH]; [simpl; lia|].
  rewrite fmap_cons. cbn [concat]. rewrite omap_app, length_app, Hh, IH. simpl. lia.
Qed.

(** X5: one port for the whole group.  In a group that has been created,
    the router listens on the group's port, and for each route there is one
    mesh node listening on it, one task whose proxy forwards it, and one
    TCP port mapping of it (container and host port alike); the only other
    mappings are the X-Ray daemon's UDP 2000. *)
Theorem group_port_agrees (scope : Path) (id : string)
    (props : AppMeshServiceProps) (t : Tree) (svc : AppMeshService.t) (t' : Tree) :
  AppMeshService.constructor scope id props t = inr (svc, t') ->
  let port := props_port props in
  let n := length (props_routes props) in
  exists delta,
    t' = t ++ delta /\
    (fun x => vr_listeners x.2) <$> select as_VirtualRouter delta
      = [[VirtualRouterListener_http port]] /\
    (fun x => listener_port <$> vn_listeners x.2) <$> select as_VirtualNode delta
      = replicate n [port] /\
    (fun x => appPorts (proxyConfiguration x.2)) <$> select as_TaskDefinition delta
      = replicate n [port] /\
    snd <$> portMappings delta
      = concat (replicate n
          [{| containerPort := port; hostPort := port; pm_protocol := TCP |};
           {| containerPort := 2000; hostPort := 2000; pm_protocol := UDP |}]) /\
    Forall (fun u : EnvoyFargateService.t => meta_port (EnvoyFargateService.meta u) = port)
      (AppMeshService.envoyFargateServices svc).
Proof.
  intros (-> & -> & _)%AppMeshService_success port n. subst port n.
  destruct (AppMeshService_view scope id props) as (Hvr & _).
  exists (AppMeshService_decls scope id props). split; [done|].
  split; [by rewrite Hvr|].
  unfold AppMeshService_decls, select, portMappings. rewrite !omap_app. simpl.
  rewrite !app_nil_r.
  split; [|split; [|split]].
  - erewrite omap_concat_singleton; cycle 1.
    { intros r. destruct (EnvoyFargateService_spec (scope ++ [id]) (unit_id r)
        (unit_props props r)) as (_ & _ & _ & _ & _ & H & _). exact H. }
    rewrite <- list_fmap_compose. simpl.
    induction (props_routes props) as [|r l IH]; [done|].
    rewrite fmap_cons. simpl. by rewrite IH.
  - erewrite omap_concat_singleton; cycle 1.
    { intros r. destruct (EnvoyFargateService_details (scope ++ [id]) (unit_id r)
        (unit_props props r)) as (_ & _ & _ & H & _). exact H. }
    rewrite <- list_fmap_compose. simpl.
    induction (props_routes props) as [|r l IH]; [done|].
    rewrite fmap_cons. simpl. by rewrite IH.
  - induction (props_routes props) as [|r l IH]; [done|].
    rewrite fmap_cons. cbn [concat replicate length]. rewrite omap_app, fmap_app, IH.
    f_equal.
    destruct (EnvoyFargateService_details (scope ++ [id]) (unit_id r)
        (unit_props props r)) as (_ & _ & _ & _ & _ & _ & H).
    cbv zeta in H. unfold portMappings, unit_decls in *. by rewrite H.
  - apply Forall_fmap, Forall_true. done.
Qed.

Lemma group_port_agrees_witness :
  AppMeshService.constructor stack_node "AppMeshServiceB" serviceB_props []
    = inr (serviceB_object, AppMeshService_decls stack_node "AppMeshServiceB" serviceB_props) /\
  exists delta,
    (fun x => listener_port <$> vn_listeners x.2) <$> select as_VirtualNode delta
      = [[3000]; [3000]] /\
    (fun x => appPorts (proxyConfiguration x.2)) <$> select as_TaskDefinition delta
      = [[3000]; [3000]].
Proof.
  assert (H : AppMeshService.constructor stack_node "AppMeshServiceB" serviceB_props []
    = inr (serviceB_object, AppMeshService_decls stack_node "AppMeshServiceB" serviceB_props))
    by (vm_compute; reflexivity).
  split; [exact H|].
  destruct (group_port_agrees _ _ _ _ _ _ H) as (delta & _ & _ & Hvn & Htd & _).
  exists delta. split; [exact Hvn|exact Htd].
Defined.

Lemma AppMeshService_paths_length (scope : Path) (id : string)
    (props : AppMeshServiceProps) :
  length (paths (AppMeshService_decls scope id props))
    = (9 * length (props_routes props) + 5)%nat.
Proof.
  rewrite AppMeshService_paths. cbv zeta. rewrite !length_app. simpl.
  unfold paths. rewrite (length_omap_concat _ _ _ 9%nat); [lia|].
  intros r. destruct (EnvoyFargateService_details (scope ++ [id]) (unit_id r)
      (unit_props props r)) as (_ & H & _).
  cbv zeta in H. unfold paths, unit_decls in *. by rewrite H.
Qed.

(** X6: a group keeps to itself.  Every construct its constructor creates
    lies below the group's own node, [9 n + 5] of them for [n] routes; what
    was in the tree before stays in place; and the constructor declares no
    backend, allows no traffic and creates no load balancer. *)
Theorem group_self_contained (scope : Path) (id : string)
    (props : AppMeshServiceProps) (t : Tree) (svc : AppMeshService.t) (t' : Tree) :
  AppMeshService.constructor scope id props t = inr (svc, t') ->
  exists delta,
    t' = t ++ delta /\
    Forall (fun p => AppMeshService.node svc `prefix_of` p) (paths delta) /\
    length (paths delta) = (9 * length (props_routes props) + 5)%nat /\
    backends delta = [] /\
    grants delta = [] /\
    select as_LoadBalancer delta = [].
Proof.
  intros (-> & -> & _)%AppMeshService_success.
  destruct (AppMeshService_view scope id props) as (_ & _ & _ & _ & Hlb & Hb & Hg).
  exists (AppMeshService_decls scope id props). split; [done|].
  split; [|split; [|done]].
  - apply Forall_forall. intros p. apply AppMeshService_paths_prefix.
  - apply AppMeshService_paths_length.
Qed.

Lemma group_self_contained_witness :
  AppMeshService.constructor stack_node "AppMeshServiceB" serviceB_props []
    = inr (serviceB_object, AppMeshService_decls stack_node "AppMeshServiceB" serviceB_props) /\
  exists delta, length (paths delta) = 23%nat /\ grants delta = [].
Proof.
  assert (H : AppMeshService.constructor stack_node "AppMeshServiceB" serviceB_props []
    = inr (serviceB_object, AppMeshService_decls stack_node "AppMeshServiceB" serviceB_props))
    by (vm_compute; reflexivity).
  split; [exact H|].
  destruct (group_self_contained _ _ _ _ _ _ H) as (delta & _ & _ & Hn & _ & Hg & _).
  exists delta. split; [exact Hn|exact Hg].
Defined.

(** * Backends between created groups *)

Lemma addBackends_runs (A B : AppMeshService.t) (t : Tree) :
  AppMeshService.addBackends A B t = inr (tt, t ++ addBackends_decls A B).
Proof.
  destruct (addBackends_spec A B) as (Hem & Hp & _). rewrite Hem.
  destruct (proj2 (commit_succeeds (addBackends_decls A B) t)) as [t' Ht'].
  { rewrite Hp. split; [apply NoDup_nil_2|]. intros p Hin. by apply elem_of_nil in Hin. }
  rewrite Ht'. by apply commit_inr in Ht' as ->.
Qed.

Lemma list_prod_fmap {A B C D} (f : A -> C) (g : B -> D) (l : list A) (l' : list B) :
  list_prod (f <$> l) (g <$> l') = (fun p => (f p.1, g p.2)) <$> list_prod l l'.
Proof.
  induction l as [|a l IH]; [done|].
  rewrite fmap_cons, !list_prod_cons, fmap_app, IH. f_equal.
  by rewrite <- !list_fmap_compose.
Qed.

(** X8: [addBackends] between two groups that have been created connects
    what the constructors created: each mesh node of the first group gets
    the virtual service of the second as backend, and each Fargate service
    of the first is allowed to reach each Fargate service of the second on
    the second group's port. *)
Theorem addBackends_links_created_groups
    (scopeA : Path) (idA : string) (propsA : AppMeshServiceProps) (tA : Tree)
    (A : AppMeshService.t) (tA' : Tree)
    (scopeB : Path) (idB : string) (propsB : AppMeshServiceProps) (tB : Tree)
    (B : AppMeshService.t) (tB' : Tree) (t : Tree) :
  AppMeshService.constructor scopeA idA propsA tA = inr (A, tA') ->
  AppMeshService.constructor scopeB idB propsB tB = inr (B, tB') ->
  exists dA dB delta,
    tA' = tA ++ dA /\
    tB' = tB ++ dB /\
    AppMeshService.addBackends A B t = inr (tt, t ++ delta) /\
    fst <$> select as_VirtualService dB = [AppMeshService.virtualService B] /\
    backends delta =
      (fun n => (n, AppMeshService.virtualService B)) <$> (fst <$> select as_VirtualNode dA) /\
    grants delta =
      (fun ft => (ft.1, ft.2, Port_tcp (props_port propsB)))
        <$> list_prod (fst <$> select as_FargateService dA)
                      (fst <$> select as_FargateService dB).
Proof.
  intros (-> & -> & _)%AppMeshService_success (-> & -> & _)%AppMeshService_success.
  destruct (AppMeshService_units scopeA idA propsA) as (HfsA & _ & _ & _ & HvnA & _).
  destruct (AppMeshService_units scopeB idB propsB) as (HfsB & _).
  destruct (AppMeshService_view scopeB idB propsB) as (_ & _ & HvsB & _).
  destruct (addBackends_spec (AppMeshService_object scopeA idA propsA)
              (AppMeshService_object scopeB idB propsB)) as (_ & _ & Hb & Hg & _).
  eexists _, _, _. split; [done|]. split; [done|].
  split; [apply addBackends_runs|]. split; [by rewrite HvsB|].
  cbv zeta in *. rewrite Hb, Hg, HvnA, HfsA, HfsB. split.
  - by rewrite <- list_fmap_compose.
  - change (AppMeshService.envoyFargateServices (AppMeshService_object scopeA idA propsA))
      with (unit_of (scopeA ++ [idA]) propsA <$> props_routes propsA).
    change (AppMeshService.envoyFargateServices (AppMeshService_object scopeB idB propsB))
      with (unit_of (scopeB ++ [idB]) propsB <$> props_routes propsB).
    rewrite <- !list_fmap_compose, !list_prod_fmap, <- !list_fmap_compose. done.
Qed.

Lemma addBackends_links_created_groups_witness :
  AppMeshService.constructor stack_node "AppMeshServiceA" serviceA_props []
    = inr (serviceA_object, AppMeshService_decls stack_node "AppMeshServiceA" serviceA_props) /\
  AppMeshService.constructor stack_node "AppMeshServiceB" serviceB_props []
    = inr (serviceB_object, AppMeshService_decls stack_node "AppMeshServiceB" serviceB_props) /\
  exists delta,
    AppMeshService.addBackends serviceA_object serviceB_object [] = inr (tt, [] ++ delta) /\
    length (grants delta) = 2%nat.
Proof.
  assert (HA : AppMeshService.constructor stack_node "AppMeshServiceA" serviceA_props []
    = inr (serviceA_object, AppMeshService_decls stack_node "AppMeshServiceA" serviceA_props))
    by (vm_compute; reflexivity).
  assert (HB : AppMeshService.constructor stack_node "AppMeshServiceB" serviceB_props []
    = inr (serviceB_object, AppMeshService_decls stack_node "AppMeshServiceB" serviceB_props))
    by (vm_compute; reflexivity).
  split; [exact HA|]. split; [exact HB|].
  destruct (addBackends_links_created_groups _ _ _ _ _ _ _ _ _ _ _ _ [] HA HB)
    as (dA & dB & delta & HdA & HdB & Hrun & _ & _ & Hg).
  exists delta. split; [exact Hrun|].
  simpl in HdA, HdB. subst dA dB. rewrite Hg. by vm_compute.
Defined.

(** * Errors *)

(** X9: an id that is taken stops a constructor at once.  When the scope
    already has a child [id], the constructor of a group and the constructor
    of a unit both throw the error for that very path, whatever the other
    arguments are. *)
Theorem constructor_id_taken (scope : Path) (id : string) (t : Tree)
    (gprops : AppMeshServiceProps) (uprops : EnvoyFargateServiceProps) :
  scope ++ [id] ∈ paths t ->
  AppMeshService.constructor scope id gprops t = inl (ConstructExists (scope ++ [id])) /\
  EnvoyFargateService.constructor scope id uprops t = inl (ConstructExists (scope ++ [id])).
Proof.
  intros Hin. split.
  - rewrite AppMeshService_emits.
    by erewrite commit_first_taken; [|apply AppMeshService_paths|].
  - destruct (EnvoyFargateService_details scope id uprops) as (Hem & Hp & _).
    rewrite Hem. by erewrite commit_first_taken; [|apply Hp|].
Qed.

Lemma constructor_id_taken_witness :
  stack_node ++ ["AppMeshServiceA"]
    ∈ paths (AppMeshService_decls stack_node "AppMeshServiceA" serviceA_props) /\
  AppMeshService.constructor stack_node "AppMeshServiceA" serviceB_props
      (AppMeshService_decls stack_node "AppMeshServiceA" serviceA_props)
    = inl (ConstructExists (stack_node ++ ["AppMeshServiceA"])).
Proof.
  assert (H : stack_node ++ ["AppMeshServiceA"]
    ∈ paths (AppMeshService_decls stack_node "AppMeshServiceA" serviceA_props))
    by (vm_compute; left).
  split; [exact H|].
  exact (proj1 (constructor_id_taken stack_node "AppMeshServiceA" _ serviceB_props
                  (unit_props serviceA_props {| route_name := "serviceA"; route_weight := 1 |})
                  H)).
Defined.

(** * Edge cases of a group *)

(** X11: a group without routes.  When the constructor succeeds on an
    empty list of routes it has created no unit, and still a router, a
    route without targets, the virtual service and the address record. *)
Theorem group_without_routes (scope : Path) (id : string)
    (props : AppMeshServiceProps) (t : Tree) (svc : AppMeshService.t) (t' : Tree) :
  props_routes props = [] ->
  AppMeshService.constructor scope id props t = inr (svc, t') ->
  exists delta,
    t' = t ++ delta /\
    AppMeshService.envoyFargateServices svc = [] /\
    length (paths delta) = 5%nat /\
    select as_FargateService delta = [] /\
    select as_VirtualNode delta = [] /\
    length (select as_VirtualRouter delta) = 1%nat /\
    (fun x => routeSpec x.2) <$> select as_Route delta = [RouteSpec_http []] /\
    (fun x => virtualServiceName x.2) <$> select as_VirtualService delta
      = [AppMeshService.serviceName props] /\
    (fun x => recordName x.2) <$> select as_ARecord delta
      = [AppMeshService.serviceName props].
Proof.
  intros Hroutes (-> & -> & _)%AppMeshService_success.
  exists (AppMeshService_decls scope id props). split; [done|].
  destruct (AppMeshService_view scope id props) as (Hvr & Hr & Hvs & Har & _).
  cbv zeta in *. rewrite Hvr, Hr, Hvs, Har.
  unfold AppMeshService_object, AppMeshService_decls, paired_targets. simpl.
  rewrite Hroutes. by repeat split.
Qed.

Lemma group_without_routes_witness :
  AppMeshService.constructor stack_node "AppMeshServiceB" {|
      props_name := "serviceB";
      props_port := 3000;
      props_routes := [];
      props_environment := stack_environment;
    |} []
    = inr (AppMeshService_object stack_node "AppMeshServiceB" {|
             props_name := "serviceB";
             props_port := 3000;
             props_routes := [];
             props_environment := stack_environment;
           |},
           AppMeshService_decls stack_node "AppMeshServiceB" {|
             props_name := "serviceB";
             props_port := 3000;
             props_routes := [];
             props_environment := stack_environment;
           |}) /\
  (fun x => routeSpec x.2) <$> select as_Route
      (AppMeshService_decls stack_node "AppMeshServiceB" {|
         props_name := "serviceB";
         props_port := 3000;
         props_routes := [];
         props_environment := stack_environment;
       |}) = [RouteSpec_http []].
Proof.
  assert (H : AppMeshService.constructor stack_node "AppMeshServiceB" {|
      props_name := "serviceB";
      props_port := 3000;
      props_routes := [];
      props_environment := stack_environment;
    |} []
    = inr (AppMeshService_object stack_node "AppMeshServiceB" {|
             props_name := "serviceB";
             props_port := 3000;
             props_routes := [];
             props_environment := stack_environment;
           |},
           AppMeshService_decls stack_node "AppMeshServiceB" {|
             props_name := "serviceB";
             props_port := 3000;
             props_routes := [];
             props_environment := stack_environment;
           |}))
    by (vm_compute; reflexivity).
  split; [exact H|].
  destruct (group_without_routes stack_node "AppMeshServiceB" {|
             props_name := "serviceB";
             props_port := 3000;
             props_routes := [];
             props_environment := stack_environment;
           |} [] _ _ eq_refl H)
    as (delta & Hd & _ & _ & _ & _ & _ & Hr & _).
  change (AppMeshService_decls stack_node "AppMeshServiceB" {|
             props_name := "serviceB";
             props_port := 3000;
             props_routes := [];
             props_environment := stack_environment;
           |} = delta) in Hd.
  rewrite Hd. exact Hr.
Defined.

(** * The published name *)

Lemma lower_ascii_idempotent (c : ascii) : lower_ascii (lower_ascii c) = lower_ascii c.
Proof. by destruct c as [[] [] [] [] [] [] [] []]. Qed.

Lemma toLowerCase_idempotent (s : string) : toLowerCase (toLowerCase s) = toLowerCase s.
Proof. induction s as [|c s IH]; [done|]. simpl. by rewrite lower_ascii_idempotent, IH. Qed.

Lemma toLowerCase_app (s1 s2 : string) :
  toLowerCase (s1 +:+ s2) = toLowerCase s1 +:+ toLowerCase s2.
Proof. induction s1 as [|c s1 IH]; [done|]. simpl. by rewrite IH. Qed.

Lemma toLowerCase_length (s : string) : String.length (toLowerCase s) = String.length s.
Proof. induction s as [|c s IH]; [done|]. simpl. by rewrite IH. Qed.

Lemma String_length_app (s1 s2 : string) :
  String.length (s1 +:+ s2) = (String.length s1 + String.length s2)%nat.
Proof. induction s1 as [|c s1 IH]; [done|]. simpl. by rewrite IH. Qed.

Lemma upper_case_lower_ascii (c : ascii) : upper_case (lower_ascii c) = false.
Proof. by destruct c as [[] [] [] [] [] [] [] []]. Qed.

Lemma no_upper_case_toLowerCase (s : string) :
  forallb (fun c => negb (upper_case c)) (chars (toLowerCase s)) = true.
Proof.
  induction s as [|c s IH]; [done|]. simpl. by rewrite upper_case_lower_ascii, IH.
Qed.

(** X12: the published name is in lower case.  For a group name and a zone
    name in ASCII, the published name is the lowercase of the name, a dot,
    and the lowercase of the zone's name; it has no upper-case letter and as
    many characters as name, dot and zone together, and lowering it again
    changes nothing. *)
Theorem published_name_normal (props : AppMeshServiceProps) :
  let name := props_name props in
  let zone := zoneName (hostedZone (props_environment props)) in
  is_ascii name = true ->
  is_ascii zone = true ->
  AppMeshService.serviceName props = toLowerCase name +:+ "." +:+ toLowerCase zone /\
  forallb (fun c => negb (upper_case c)) (chars (AppMeshService.serviceName props)) = true /\
  String.length (AppMeshService.serviceName props)
    = (String.length name + 1 + String.length zone)%nat /\
  toLowerCase (AppMeshService.serviceName props) = AppMeshService.serviceName props.
Proof.
  intros name zone _ _. subst name zone. unfold AppMeshService.serviceName.
  split; [by rewrite !toLowerCase_app|]. split; [apply no_upper_case_toLowerCase|].
  split; [|apply toLowerCase_idempotent].
  rewrite toLowerCase_length, !String_length_app. simpl. lia.
Qed.

Lemma published_name_normal_witness :
  is_ascii "ServiceB" = true /\
  is_ascii "AppMesh.Local" = true /\
  AppMeshService.serviceName {|
      props_name := "ServiceB";
      props_port := 3000;
      props_routes := [];
      props_environment := {|
        mesh := mesh stack_environment;
        cluster := cluster stack_environment;
        namespace := namespace stack_environment;
        hostedZone := {|
          zone_node := zone_node (hostedZone stack_environment);
          zoneName := "AppMesh.Local";
        |};
      |};
    |} = "serviceb.appmesh.local".
Proof.
  split; [reflexivity|]. split; [reflexivity|].
  destruct (published_name_normal {|
      props_name := "ServiceB";
      props_port := 3000;
      props_routes := [];
      props_environment := {|
        mesh := mesh stack_environment;
        cluster := cluster stack_environment;
        namespace := namespace stack_environment;
        hostedZone := {|
          zone_node := zone_node (hostedZone stack_environment);
          zoneName := "AppMesh.Local";
        |};
      |};
    |} eq_refl eq_refl) as (H & _).
  exact H.
Defined.

(** X13: names that differ only in case collide unnoticed.  When two
    groups are built one after the other whose names, and whose zones'
    names, are in ASCII and have the same lowercase, the tree holds two
    virtual services and two address records, all four under one and the
    same published name. *)
Theorem case_collision_unnoticed (scope : Path) (id1 id2 : string)
    (props1 props2 : AppMeshServiceProps) (t : Tree)
    (A B : AppMeshService.t) (t1 t2 : Tree) :
  is_ascii (props_name props1) = true ->
  is_ascii (props_name props2) = true ->
  is_ascii (zoneName (hostedZone (props_environment props1))) = true ->
  is_ascii (zoneName (hostedZone (props_environment props2))) = true ->
  toLowerCase (props_name props1) = toLowerCase (props_name props2) ->
  toLowerCase (zoneName (hostedZone (props_environment props1)))
    = toLowerCase (zoneName (hostedZone (props_environment props2))) ->
  AppMeshService.constructor scope id1 props1 t = inr (A, t1) ->
  AppMeshService.constructor scope id2 props2 t1 = inr (B, t2) ->
  exists delta,
    t2 = t ++ delta /\
    (fun x => virtualServiceName x.2) <$> select as_VirtualService delta
      = [AppMeshService.serviceName props1; AppMeshService.serviceName props1] /\
    (fun x => recordName x.2) <$> select as_ARecord delta
      = [AppMeshService.serviceName props1; AppMeshService.serviceName props1].
Proof.
  intros _ _ _ _ Hname Hzone (-> & -> & _)%AppMeshService_success
    (-> & -> & _)%AppMeshService_success.
  exists (AppMeshService_decls scope id1 props1 ++ AppMeshService_decls scope id2 props2).
  split; [by rewrite <- app_assoc|].
  destruct (AppMeshService_view scope id1 props1) as (_ & _ & Hvs1 & Har1 & _).
  destruct (AppMeshService_view scope id2 props2) as (_ & _ & Hvs2 & Har2 & _).
  cbv zeta in *. unfold select in *.
  rewrite !omap_app, Hvs1, Hvs2, Har1, Har2. simpl.
  assert (Heq : AppMeshService.serviceName props2 = AppMeshService.serviceName props1).
  { unfold AppMeshService.serviceName. by rewrite !toLowerCase_app, Hname, Hzone. }
  by rewrite Heq.
Qed.

Lemma case_collision_unnoticed_witness :
  is_ascii "serviceB" = true /\
  is_ascii "SERVICEB" = true /\
  is_ascii "appmesh.local" = true /\
  toLowerCase "serviceB" = toLowerCase "SERVICEB" /\
  AppMeshService.constructor stack_node "AppMeshServiceB" serviceB_props []
    = inr (serviceB_object,
           AppMeshService_decls stack_node "AppMeshServiceB" serviceB_props) /\
  exists B delta,
    AppMeshService.constructor stack_node "AppMeshServiceB2" {|
        props_name := "SERVICEB";
        props_port := 3000;
        props_routes := [{| route_name := "serviceB_v2"; route_weight := 1 |}];
        props_environment := stack_environment;
      |} (AppMeshService_decls stack_node "AppMeshServiceB" serviceB_props)
      = inr (B, [] ++ delta) /\
    (fun x => virtualServiceName x.2) <$> select as_VirtualService delta
      = ["serviceb.appmesh.local"; "serviceb.appmesh.local"].
Proof.
  assert (H1 : AppMeshService.constructor stack_node "AppMeshServiceB" serviceB_props []
    = inr (serviceB_object,
           AppMeshService_decls stack_node "AppMeshServiceB" serviceB_props))
    by (vm_compute; reflexivity).
  assert (H2 : AppMeshService.constructor stack_node "AppMeshServiceB2" {|
        props_name := "SERVICEB";
        props_port := 3000;
        props_routes := [{| route_name := "serviceB_v2"; route_weight := 1 |}];
        props_environment := stack_environment;
      |} (AppMeshService_decls stack_node "AppMeshServiceB" serviceB_props)
    = inr (AppMeshService_object stack_node "AppMeshServiceB2" {|
             props_name := "SERVICEB";
             props_port := 3000;
             props_routes := [{| route_name := "serviceB_v2"; route_weight := 1 |}];
             props_environment := stack_environment;
           |},
           AppMeshService_decls stack_node "AppMeshServiceB" serviceB_props
           ++ AppMeshService_decls stack_node "AppMeshServiceB2" {|
                props_name := "SERVICEB";
                props_port := 3000;
                props_routes := [{| route_name := "serviceB_v2"; route_weight := 1 |}];
                props_environment := stack_environment;
              |}))
    by (vm_compute; reflexivity).
  split; [reflexivity|]. split; [reflexivity|]. split; [reflexivity|].
  split; [reflexivity|]. split; [exact H1|].
  destruct (case_collision_unnoticed stack_node "AppMeshServiceB" "AppMeshServiceB2"
              serviceB_props {|
                props_name := "SERVICEB";
                props_port := 3000;
                props_routes := [{| route_name := "serviceB_v2"; route_weight := 1 |}];
                props_environment := stack_environment;
              |} [] _ _ _ _
              eq_refl eq_refl eq_refl eq_refl eq_refl eq_refl H1 H2)
    as (delta & Hd & Hvs & _).
  eexists _, delta. split; [|exact Hvs].
  rewrite H2. by rewrite Hd.
Defined.

(** * More on the gateway *)



(** X15: the gateway in front of version 2 of service B.  When the request
    is fulfilled with the body the [/version] handler of version 2 sends,
    the gateway answers [{"serviceB": {"version": "v2"}}]. *)
Theorem gateway_relays_version_2 (Failure : Type) (JSON_stringify : Failure -> string)
    (axios_get : string -> Gateway.Settled Failure) (b : JSON) :
  Gateway.body (Gateway.res Failure
    (ServiceB_v2.get_version Failure (Gateway.fresh Failure)).2) = Some b ->
  axios_get "http://serviceb.appmesh.local:3000/version"
    = Gateway.fulfilled Failure {| Gateway.data := b |} ->
  Gateway.body (Gateway.res Failure
    (Gateway.get_serviceb Failure JSON_stringify axios_get (Gateway.fresh Failure)).2)
  = Some (JSON_object [("serviceB", JSON_object [("version", JSON_string "v2")])]).
Proof.
  intros [= <-] Hget.
  unfold Gateway.get_serviceb, Gateway.try_catch, Gateway.hbind, Gateway.await.
  by rewrite Hget.
Qed.

Lemma gateway_relays_version_2_witness :
  Gateway.body (Gateway.res Empty_set
    (ServiceB_v2.get_version Empty_set (Gateway.fresh Empty_set)).2)
    = Some (JSON_object [("version", JSON_string "v2")]) /\
  Gateway.body (Gateway.res Empty_set
    (Gateway.get_serviceb Empty_set (fun e => match e with end)
       (fun _ => Gateway.fulfilled Empty_set
          {| Gateway.data := JSON_object [("version", JSON_string "v2")] |})
       (Gateway.fresh Empty_set)).2)
  = Some (JSON_object [("serviceB", JSON_object [("version", JSON_string "v2")])]).
Proof.
  split; [reflexivity|].
  exact (gateway_relays_version_2 Empty_set (fun e => match e with end)
           (fun _ => Gateway.fulfilled Empty_set
              {| Gateway.data := JSON_object [("version", JSON_string "v2")] |})
           (JSON_object [("version", JSON_string "v2")]) eq_refl eq_refl).
Defined.

(** * The whole stack *)

Lemma Stack_emits_explicit (scope : Path) (id : string) :
  exists stack d,
    emits (AwsAppmeshWeightedRoutingStack.constructor scope id) stack d /\
    (exists ps, paths d = (scope ++ [id]) :: ps) /\
    Forall (fun p => (scope ++ [id]) `prefix_of` p) (paths d) /\
    length (paths d) = 47%nat /\
    length (backends d) = 1%nat /\
    length (grants d) = 2%nat /\
    length (select as_LoadBalancer d) = 1%nat.
Proof.
  do 2 eexists. split.
  { unfold AwsAppmeshWeightedRoutingStack.constructor.
    do 6 emits_then ltac:(apply emits_new). cbv zeta.
    emits_then ltac:(apply AppMeshService_emits).
    emits_then ltac:(apply AppMeshService_emits).
    emits_then ltac:(apply addBackends_spec).
    emits_then ltac:(apply emits_lift).
    emits_then ltac:(apply createExternalLoadBalancer_spec).
    apply emits_ret. }
  split; [by eexists|].
  set (this := scope ++ [id]).
  match goal with |- context [AppMeshService_decls this "AppMeshServiceA" ?p] => set (pA := p) end.
  match goal with |- context [AppMeshService_decls this "AppMeshServiceB" ?p] => set (pB := p) end.
  set (dA := AppMeshService_decls this "AppMeshServiceA" pA).
  set (dB := AppMeshService_decls this "AppMeshServiceB" pB).
  set (dbk := addBackends_decls _ _).
  set (dlb := createExternalLoadBalancer_decls _).
  assert (HApre : forall q, q ∈ paths dA -> (this ++ ["AppMeshServiceA"]) `prefix_of` q)
    by (intros q; apply AppMeshService_paths_prefix).
  assert (HBpre : forall q, q ∈ paths dB -> (this ++ ["AppMeshServiceB"]) `prefix_of` q)
    by (intros q; apply AppMeshService_paths_prefix).
  assert (HAlen : length (paths dA) = 14%nat) by apply AppMeshService_paths_length.
  assert (HBlen : length (paths dB) = 23%nat) by apply AppMeshService_paths_length.
  destruct (addBackends_spec (AppMeshService_object this "AppMeshServiceA" pA)
              (AppMeshService_object this "AppMeshServiceB" pB)) as (_ & Hbk & Hb & Hg & Hbl).
  fold dbk in Hbk, Hb, Hg, Hbl.
  destruct (createExternalLoadBalancer_spec
              (unit_of (this ++ ["AppMeshServiceA"]) pA
                 {| route_name := "serviceA"; route_weight := 1 |}))
    as (_ & Hlb & Hlbl & _ & _ & Hlbb & Hlbg).
  cbv zeta in Hlb, Hlbl. fold dlb in Hlb, Hlbl, Hlbb, Hlbg.
  assert (Hlbpre : forall q, q ∈ paths dlb -> (this ++ ["AppMeshServiceA"]) `prefix_of` q).
  { intros q. rewrite Hlb, !elem_of_cons, elem_of_nil. simpl.
    intros [->|[->|[->|[->|[]]]]]; prefix_solve. }
  assert (Hlblen : length (paths dlb) = 4%nat) by (by rewrite Hlb).
  clear Hlb.
  destruct (AppMeshService_view this "AppMeshServiceA" pA) as (_ & _ & _ & _ & HAl & HAb & HAg).
  destruct (AppMeshService_view this "AppMeshServiceB" pB) as (_ & _ & _ & _ & HBl & HBb & HBg).
  fold dA in HAl, HAb, HAg. fold dB in HBl, HBb, HBg.
  clearbody dA dB dbk dlb.
  rewrite !paths_app, Hbk.
  unfold backends, grants, select. rewrite !omap_app.
  fold (backends dA) (backends dB) (backends dbk) (backends dlb).
  fold (grants dA) (grants dB) (grants dbk) (grants dlb).
  fold (select as_LoadBalancer dA) (select as_LoadBalancer dB)
       (select as_LoadBalancer dbk) (select as_LoadBalancer dlb).
  rewrite HAb, HBb, Hlbb, HAg, HBg, Hlbg, HAl, HBl, Hbl.
  rewrite Hb, Hg, Hlbl. simpl. rewrite !app_nil_r, !length_app, HAlen, HBlen, Hlblen.
  split; [|done].
  repeat (apply Forall_cons; split; [prefix_solve|]).
  rewrite !Forall_app. repeat split; apply Forall_forall; intros q Hq;
    [apply HApre in Hq|apply HBpre in Hq|apply Hlbpre in Hq];
    (etrans; [|exact Hq]); by apply prefix_app_r.
Qed.

(** X16: what the stack consists of.  When the constructor of the stack
    succeeds, under whatever id and after whatever was built before, it
    has added 47 constructs, all below its own node, one backend
    declaration, two grants and one load balancer, and has left in place
    what was there.  Called again with the same id it is refused at once,
    as the id of the stack is taken. *)
Theorem stack_contents (scope : Path) (id : string) (t : Tree)
    (stack : AwsAppmeshWeightedRoutingStack.t) (t' : Tree) :
  AwsAppmeshWeightedRoutingStack.constructor scope id t = inr (stack, t') ->
  exists delta,
    t' = t ++ delta /\
    Forall (fun p => (scope ++ [id]) `prefix_of` p) (paths delta) /\
    length (paths delta) = 47%nat /\
    length (backends delta) = 1%nat /\
    length (grants delta) = 2%nat /\
    length (select as_LoadBalancer delta) = 1%nat /\
    AwsAppmeshWeightedRoutingStack.constructor scope id t'
      = inl (ConstructExists (scope ++ [id])).
Proof.
  intros Hrun.
  destruct (Stack_emits_explicit scope id)
    as (stack0 & d & Hem & (ps & Hps) & Hpre & Hrest).
  destruct (emits_success _ _ _ _ _ _ Hem Hrun) as [-> ->].
  exists d. split; [done|]. split; [done|].
  destruct Hrest as (? & ? & ? & ?). repeat (split; [done|]).
  rewrite Hem. erewrite commit_first_taken; [done|exact Hps|].
  rewrite paths_app, Hps. apply elem_of_app. right. by left.
Qed.

Lemma stack_contents_witness :
  exists stack,
    main = inr (stack, main_tree) /\
    length (paths main_tree) = 47%nat /\
    AwsAppmeshWeightedRoutingStack.constructor App "AwsAppmeshWeightedRoutingStack" main_tree
      = inl (ConstructExists stack_node).
Proof.
  assert (H : exists stack, main = inr (stack, main_tree))
    by (eexists; vm_compute; reflexivity).
  destruct H as (stack & Hrun).
  exists stack. split; [exact Hrun|].
  destruct (stack_contents App "AwsAppmeshWeightedRoutingStack" [] stack main_tree Hrun)
    as (delta & Hd & _ & Hlen & _ & _ & _ & Hre).
  change (main_tree = delta) in Hd. subst delta. split; [exact Hlen|exact Hre].
Defined.
